(** * ddd-dice-sync: room state of the polling backend and the pull client

    Shallow embedding of
    - [netlify/functions/sync.js]: class [Room] and the branches of
      [exports.handler], in the basic variant and in the variant
      "Erweitert um Player Management";
    - the pull clients [DDDSyncClient] (sync-client.js and its player
      management successor): the polling timer and [pollDelay].

    Conventions.
    - A JS [Date] is its numeric value, milliseconds since the epoch, in [Z].
      Every method that reads the clock takes the reading [now] as an
      argument; a method call is served within one clock reading.
    - [Math.random()] is an argument as well, a rational in [0,1).
    - A JS [Map] iterates in insertion order: it is an association list
      with distinct keys, newest key last.
    - Mutation of [this] is explicit state passing: a method maps a [Room]
      to the [Room] after the call. *)

From Stdlib Require Import ZArith String List Bool Lia QArith Qminmax.
From Stdlib Require Import Sorted Lqa.
Import ListNotations.
Local Open Scope string_scope.
Local Open Scope list_scope.
Local Open Scope Z_scope.

(** ** JavaScript values read by the server *)

(** The primitive values a JSON body can put in an attribute that the
    server tests for truthiness. *)
Inductive jsval : Type :=
| JUndefined
| JNull
| JBool (b : bool)
| JNum (n : Z)
| JStr (s : string).

(** ToBoolean. *)
Definition truthy (v : jsval) : bool :=
  match v with
  | JUndefined | JNull => false
  | JBool b => b
  | JNum n => negb (n =? 0)
  | JStr s => negb (String.eqb s EmptyString)
  end.

(** [a || b] where [a] is already a boolean: JS yields [true] or the right
    operand itself, not its truth value. *)
Definition js_or (a : bool) (b : jsval) : jsval :=
  if a then JBool true else b.

(** [Array.prototype.slice(-n)]: the last [n] elements, the whole array
    when it is shorter. *)
Definition slice_last {A : Type} (n : nat) (l : list A) : list A :=
  skipn (List.length l - n)%nat l.

Definition Time := Z.
Definition SessionId := string.

(** ** JS [Map] keyed by session id *)

Module JSMap.

Definition t (V : Type) : Type := list (SessionId * V).

Section Ops.
Context {V : Type}.

Definition empty : t V := [].

Fixpoint get (k : SessionId) (m : t V) : option V :=
  match m with
  | [] => None
  | (k', v) :: m' => if String.eqb k k' then Some v else get k m'
  end.

Definition has (k : SessionId) (m : t V) : bool :=
  match get k m with Some _ => true | None => false end.

(** [set]: an existing key keeps its place, a new key goes last. *)
Fixpoint set (k : SessionId) (v : V) (m : t V) : t V :=
  match m with
  | [] => [(k, v)]
  | (k', v') :: m' =>
      if String.eqb k k' then (k, v) :: m' else (k', v') :: set k v m'
  end.

Definition delete (k : SessionId) (m : t V) : t V :=
  filter (fun e => negb (String.eqb k (fst e))) m.

Definition size (m : t V) : nat := List.length m.

Definition keys (m : t V) : list SessionId := map fst m.

Definition values (m : t V) : list V := map snd m.

End Ops.

End JSMap.

(** ** Data model *)

(** A participant entry, [{sessionId, ...participantInfo, joinedAt, lastSeen}]. *)
Record Participant : Type := mkParticipant {
  pa_sessionId : SessionId;
  pa_userAgent : string;
  pa_ip : string;
  pa_joinedAt : Time;
  pa_lastSeen : Time
}.

(** A player object.  The caller supplies arbitrary attributes; the server
    reads and writes [sessionId], [isActive] and [lastUpdated], and its
    array test reads [length] from whatever it is handed.  [pl_name] stands
    for the attributes the server never looks at, [pl_length] is a numeric
    [length] attribute when the caller sent one ([None]: no such
    attribute, the normal case). *)
Record Player : Type := mkPlayer {
  pl_name : string;
  pl_sessionId : option SessionId;
  pl_isActive : jsval;
  pl_length : option Z;
  pl_lastUpdated : option Time
}.

Record TimerState : Type := mkTimerState {
  ts_isRunning : bool;
  ts_remainingTime : Z;
  ts_duration : Z;
  ts_startTime : option Time;
  ts_lastUpdatedBy : option SessionId;
  ts_lastUpdatedAt : option Time
}.

Definition DiceValues := list Z.

(** The three kinds of event a handler appends. *)
Inductive Payload : Type :=
| DiceRoll (values : DiceValues)
| TimerSync (timerState : TimerState)
| PlayersUpdate (players : list Player).

Record Message : Type := mkMessage {
  msg_payload : Payload;
  msg_fromSession : SessionId;
  msg_timestamp : Time;
  msg_id : Q
}.

Record Room : Type := mkRoom {
  id : string;
  participants : JSMap.t Participant;
  currentDiceValues : option DiceValues;
  timerState : TimerState;
  players : JSMap.t (list Player);
  messages : list Message;
  createdAt : Time;
  lastActivity : Time
}.

(** Field updates, one per assigned field. *)
Definition with_participants (ps : JSMap.t Participant) (r : Room) : Room :=
  mkRoom (id r) ps (currentDiceValues r) (timerState r) (players r)
         (messages r) (createdAt r) (lastActivity r).

Definition with_currentDiceValues (d : option DiceValues) (r : Room) : Room :=
  mkRoom (id r) (participants r) d (timerState r) (players r)
         (messages r) (createdAt r) (lastActivity r).

Definition with_timerState (t : TimerState) (r : Room) : Room :=
  mkRoom (id r) (participants r) (currentDiceValues r) t (players r)
         (messages r) (createdAt r) (lastActivity r).

Definition with_players (pl : JSMap.t (list Player)) (r : Room) : Room :=
  mkRoom (id r) (participants r) (currentDiceValues r) (timerState r) pl
         (messages r) (createdAt r) (lastActivity r).

Definition with_messages (ms : list Message) (r : Room) : Room :=
  mkRoom (id r) (participants r) (currentDiceValues r) (timerState r)
         (players r) ms (createdAt r) (lastActivity r).

Definition with_lastActivity (t : Time) (r : Room) : Room :=
  mkRoom (id r) (participants r) (currentDiceValues r) (timerState r)
         (players r) (messages r) (createdAt r) t.

(** ** class Room *)

(** [constructor(id)]. *)
Definition newRoom (now : Time) (rid : string) : Room :=
  {| id := rid;
     participants := JSMap.empty;
     currentDiceValues := None;
     timerState := mkTimerState false 0 60 None None None;
     players := JSMap.empty;
     messages := [];
     createdAt := now;
     lastActivity := now |}.

(** The [participantInfo] object the handlers build from the request headers. *)
Record ParticipantInfo : Type := mkParticipantInfo {
  pi_userAgent : string;
  pi_ip : string
}.

Definition addParticipant (now : Time) (sessionId : SessionId)
    (participantInfo : ParticipantInfo) (r : Room) : Room :=
  with_lastActivity now
    (with_participants
       (JSMap.set sessionId
          (mkParticipant sessionId (pi_userAgent participantInfo)
             (pi_ip participantInfo) now now)
          (participants r))
       r).

Definition removeParticipant (now : Time) (sessionId : SessionId) (r : Room) : Room :=
  with_lastActivity now
    (with_players (JSMap.delete sessionId (players r))
       (with_participants (JSMap.delete sessionId (participants r)) r)).

(** [getPlayerData]: the arrays of all sessions, concatenated in the
    iteration order of the map. *)
Definition getPlayerData (r : Room) : list Player :=
  concat (JSMap.values (players r)).

Definition getActivePlayerCount (r : Room) : nat :=
  List.length (filter (fun p => truthy (pl_isActive p)) (getPlayerData r)).

(** What [updatePlayerData] is handed as [playersArray]: nothing
    ([undefined] or [null]), an array of player objects, or one player
    object (the element-wise caller in [exports.handler]). *)
Inductive PlayersArg : Type :=
| ArgMissing
| ArgArray (l : list Player)
| ArgObject (o : Player).

(** How a call ends: it returns, or it throws a TypeError; the mutations
    made before the throw stay. *)
Inductive outcome : Type :=
| Returned (r : Room)
| Threw (r : Room).

Definition room_of (o : outcome) : Room :=
  match o with Returned r | Threw r => r end.

(** The object [{...playerData, sessionId, isActive: canBeActive, lastUpdated}]
    built by the callback of [playersArray.map]. *)
Definition updatedPlayer (now : Time) (sessionId : SessionId)
    (activePlayersFromOtherSessions : nat) (playerData : Player) : Player :=
  let canBeActive :=
    js_or (activePlayersFromOtherSessions <? 4)%nat (pl_isActive playerData) in
  {| pl_name := pl_name playerData;
     pl_sessionId := Some sessionId;
     pl_isActive := canBeActive;
     pl_length := pl_length playerData;
     pl_lastUpdated := Some now |}.

(** [updatePlayerData(sessionId, playersArray)].  The guard
    [playersArray && playersArray.length > 0] reads the array length of an
    array and the [length] attribute of an object ([undefined > 0] is
    false); an object that passes it has no [map] method, so
    [playersArray.map] throws. *)
Definition updatePlayerData (now : Time) (sessionId : SessionId)
    (playersArray : PlayersArg) (r : Room) : outcome :=
  let r1 := with_players (JSMap.delete sessionId (players r)) r in
  match playersArray with
  | ArgMissing => Returned (with_lastActivity now r1)
  | ArgArray l =>
      if (0 <? length l)%nat then
        let activePlayersFromOtherSessions :=
          length (filter (fun p => truthy (pl_isActive p))
                    (concat (JSMap.values (players r1)))) in
        let updatedPlayers :=
          map (updatedPlayer now sessionId activePlayersFromOtherSessions) l in
        Returned
          (with_lastActivity now
             (with_players (JSMap.set sessionId updatedPlayers (players r1)) r1))
      else Returned (with_lastActivity now r1)
  | ArgObject o =>
      match pl_length o with
      | Some n => if 0 <? n then Threw r1 else Returned (with_lastActivity now r1)
      | None => Returned (with_lastActivity now r1)
      end
  end.

(** One turn of the loop in [getParticipantCount]. *)
Definition purge_step (fiveMinutesAgo : Time) (r : Room)
    (entry : SessionId * Participant) : Room :=
  let (sessionId, participant) := entry in
  if pa_lastSeen participant <? fiveMinutesAgo then
    with_players (JSMap.delete sessionId (players r))
      (with_participants (JSMap.delete sessionId (participants r)) r)
  else r.

(** [getParticipantCount()]: the loop visits every entry of the map as it
    was at the start (deleting the entry under the cursor does not skip
    any), then the size is read. *)
Definition getParticipantCount (now : Time) (r : Room) : Room * nat :=
  let fiveMinutesAgo := now - 5 * 60 * 1000 in
  let r' := fold_left (purge_step fiveMinutesAgo) (participants r) r in
  (r', JSMap.size (participants r')).

Definition updateParticipant (now : Time) (sessionId : SessionId) (r : Room) : Room :=
  match JSMap.get sessionId (participants r) with
  | Some participant =>
      with_lastActivity now
        (with_participants
           (JSMap.set sessionId
              (mkParticipant (pa_sessionId participant) (pa_userAgent participant)
                 (pa_ip participant) (pa_joinedAt participant) now)
              (participants r))
           r)
  | None => r
  end.

(** [addMessage(message)]; [message] carries the payload and [fromSession],
    the method adds [timestamp] and [id: Date.now() + Math.random()]. *)
Definition addMessage (now : Time) (rnd : Q) (payload : Payload)
    (fromSession : SessionId) (r : Room) : Room :=
  let pushed :=
    messages r ++ [mkMessage payload fromSession now (inject_Z now + rnd)%Q] in
  let kept := if (50 <? length pushed)%nat then slice_last 50 pushed else pushed in
  with_lastActivity now (with_messages kept r).

(** The [since] field of a poll: [null] or absent on a first poll ([None]),
    afterwards the [timestamp] string of the previous response,
    [new Date().toISOString()], a non-empty (truthy) string that
    [new Date(since)] reads back to the same millisecond. *)
Definition Since := option Time.

Definition getRecentMessages (since : Since) (r : Room) : list Message :=
  match since with
  | None => slice_last 10 (messages r)
  | Some sinceDate => filter (fun msg => sinceDate <? msg_timestamp msg) (messages r)
  end.

Definition isEmpty (now : Time) (r : Room) : Room * bool :=
  let (r', n) := getParticipantCount now r in (r', (n =? 0)%nat).

Definition isExpired (now : Time) (r : Room) : bool :=
  lastActivity r <? now - 60 * 60 * 1000.

(** ** The branches of [exports.handler], on the room they looked up *)

(** Response bodies, one constructor per shape the handler serializes. *)
Inductive Response : Type :=
| NotFound404
| ServerError500
| CreatedRoom (participantCount activePlayerCount : nat)
| JoinedRoom (participantCount activePlayerCount : nat)
    (dice : option DiceValues) (timer : TimerState) (roster : list Player)
| Synced (participantCount : nat)
| SyncedPlayers (participantCount activePlayerCount : nat) (roster : list Player)
| Polled (msgs : list Message) (participantCount activePlayerCount : nat)
    (dice : option DiceValues) (timer : TimerState) (roster : list Player)
    (timestamp : Time)
| LeftRoom
| RoomInfo (participantCount activePlayerCount : nat) (timer : TimerState)
    (roster : list Player) (created lastActive : Time).

(** [/create-room], after the id was drawn. *)
Definition create_room (now : Time) (roomId : string) (sessionId : SessionId)
    (info : ParticipantInfo) : Room * Response :=
  let room := addParticipant now sessionId info (newRoom now roomId) in
  let (room1, participantCount) := getParticipantCount now room in
  (room1, CreatedRoom participantCount (getActivePlayerCount room1)).

(** [/join-room]. *)
Definition join_room (now : Time) (sessionId : SessionId) (info : ParticipantInfo)
    (room : Room) : Room * Response :=
  let room1 := addParticipant now sessionId info room in
  let (room2, participantCount) := getParticipantCount now room1 in
  (room2,
   JoinedRoom participantCount (getActivePlayerCount room2)
     (currentDiceValues room2) (timerState room2) (getPlayerData room2)).

(** [/sync-players] as the endpoint given beside the class: [players] goes
    to [updatePlayerData] as it came ("players ist bereits ein Array von
    Spielern"). *)
Definition sync_players (now : Time) (rnd : Q) (sessionId : SessionId)
    (playersArg : PlayersArg) (room : Room) : Room * Response :=
  let room1 := updateParticipant now sessionId room in
  match updatePlayerData now sessionId playersArg room1 with
  | Threw room2 => (room2, ServerError500)
  | Returned room2 =>
      let room3 :=
        addMessage now rnd (PlayersUpdate (getPlayerData room2)) sessionId room2 in
      let (room4, participantCount) := getParticipantCount now room3 in
      (room4,
       SyncedPlayers participantCount (getActivePlayerCount room4)
         (getPlayerData room4))
  end.

(** The object [playerWithSession] of the element-wise branch.
    [room.players.get(sessionId)] is an array, whose [isActive] is
    [undefined]. *)
Definition playerWithSession (sessionId : SessionId) (room : Room)
    (playerData : Player) : Player :=
  {| pl_name := pl_name playerData;
     pl_sessionId := Some sessionId;
     pl_isActive :=
       js_or (getActivePlayerCount room <? 4)%nat
         (if JSMap.has sessionId (players room) then JUndefined else JBool false);
     pl_length := pl_length playerData;
     pl_lastUpdated := pl_lastUpdated playerData |}.

(** [players.forEach(playerData => ...)] of that branch; a throw in the
    callback ends the loop. *)
Fixpoint forEach_player (now : Time) (sessionId : SessionId)
    (l : list Player) (room : Room) : outcome :=
  match l with
  | [] => Returned room
  | playerData :: rest =>
      match
        updatePlayerData now sessionId
          (ArgObject (playerWithSession sessionId room playerData)) room
      with
      | Threw room' => Threw room'
      | Returned room' => forEach_player now sessionId rest room'
      end
  end.

(** [/sync-players] inside [exports.handler]: [players.forEach] throws when
    [players] is not an array, and the [catch] answers 500. *)
Definition handler_sync_players (now : Time) (rnd : Q) (sessionId : SessionId)
    (playersArg : PlayersArg) (room : Room) : Room * Response :=
  let room1 := updateParticipant now sessionId room in
  match playersArg with
  | ArgArray l =>
      match forEach_player now sessionId l room1 with
      | Threw room2 => (room2, ServerError500)
      | Returned room2 =>
          let room3 :=
            addMessage now rnd (PlayersUpdate (getPlayerData room2)) sessionId room2 in
          let (room4, participantCount) := getParticipantCount now room3 in
          (room4,
           SyncedPlayers participantCount (getActivePlayerCount room4)
             (getPlayerData room4))
      end
  | ArgMissing | ArgObject _ => (room1, ServerError500)
  end.

(** [/sync-dice]. *)
Definition sync_dice (now : Time) (rnd : Q) (sessionId : SessionId)
    (diceValues : DiceValues) (room : Room) : Room * Response :=
  let room1 := updateParticipant now sessionId room in
  let room2 := with_currentDiceValues (Some diceValues) room1 in
  let room3 := addMessage now rnd (DiceRoll diceValues) sessionId room2 in
  let (room4, participantCount) := getParticipantCount now room3 in
  (room4, Synced participantCount).

(** [/sync-timer]; the stored state is
    [{...timerState, lastUpdatedBy, lastUpdatedAt}]. *)
Definition sync_timer (now : Time) (rnd : Q) (sessionId : SessionId)
    (timer : TimerState) (room : Room) : Room * Response :=
  let room1 := updateParticipant now sessionId room in
  let stamped :=
    mkTimerState (ts_isRunning timer) (ts_remainingTime timer) (ts_duration timer)
      (ts_startTime timer) (Some sessionId) (Some now) in
  let room2 := with_timerState stamped room1 in
  let room3 := addMessage now rnd (TimerSync (timerState room2)) sessionId room2 in
  let (room4, participantCount) := getParticipantCount now room3 in
  (room4, Synced participantCount).

(** [/poll]. *)
Definition poll (now : Time) (sessionId : SessionId) (since : Since)
    (room : Room) : Room * Response :=
  let room1 := updateParticipant now sessionId room in
  let msgs := getRecentMessages since room1 in
  let filteredMessages :=
    filter (fun msg => negb (String.eqb (msg_fromSession msg) sessionId)) msgs in
  let (room2, participantCount) := getParticipantCount now room1 in
  (room2,
   Polled filteredMessages participantCount (getActivePlayerCount room2)
     (currentDiceValues room2) (timerState room2) (getPlayerData room2) now).

(** [/leave-room]; the boolean tells the registry to delete the room. *)
Definition leave_room (now : Time) (rnd : Q) (sessionId : SessionId)
    (room : Room) : Room * bool :=
  let room1 := removeParticipant now sessionId room in
  let room2 :=
    addMessage now rnd (PlayersUpdate (getPlayerData room1)) sessionId room1 in
  isEmpty now room2.

(** [/room/:id]. *)
Definition room_info (now : Time) (room : Room) : Room * Response :=
  let (room1, participantCount) := getParticipantCount now room in
  (room1,
   RoomInfo participantCount (getActivePlayerCount room1) (timerState room1)
     (getPlayerData room1) (createdAt room1) (lastActivity room1)).

(** The basic variant of the file has no [players] field and no
    [/sync-players]; its methods are the ones above on a room whose
    [players] stays empty, and its [/leave-room] appends no event. *)
Module Basic.

Definition leave_room (now : Time) (sessionId : SessionId) (room : Room)
    : Room * bool :=
  isEmpty now (removeParticipant now sessionId room).

End Basic.

(** ** The registry [rooms] and [exports.handler] *)

Definition Rooms := JSMap.t Room.

(** [cleanupRooms()]: [isEmpty] purges the room it asks, also when the room
    stays. *)
Definition cleanupRooms (now : Time) (rooms : Rooms) : Rooms :=
  flat_map
    (fun entry : string * Room =>
       let (roomId, room) := entry in
       let (room', empty) := isEmpty now room in
       if empty || isExpired now room' then [] else [(roomId, room')])
    rooms.

(** The requests the handler tells apart, with the fields it reads from the
    body. *)
Inductive Request : Type :=
| ReqJoinRoom (roomId : string) (info : ParticipantInfo)
| ReqSyncPlayers (roomId : string) (sessionId : SessionId) (playersArg : PlayersArg)
| ReqSyncDice (roomId : string) (sessionId : SessionId) (diceValues : DiceValues)
| ReqSyncTimer (roomId : string) (sessionId : SessionId) (timer : TimerState)
| ReqPoll (roomId : string) (sessionId : SessionId) (since : Since)
| ReqLeaveRoom (roomId : string) (sessionId : SessionId)
| ReqRoomInfo (roomId : string).

(** What a request reads from outside: the clock, [Math.random()] for the
    message id, whether [Math.random() < 0.1] came out true, and the id
    [generateSessionId()] returns. *)
Record Env : Type := mkEnv {
  env_now : Time;
  env_rnd : Q;
  env_sweep : bool;
  env_sessionId : SessionId
}.

(** [rooms.get(roomId)], the 404 answer, and the branch on the room found.
    The room object is shared with the map, so its mutations are the
    map's. *)
Definition on_room (roomId : string) (rooms : Rooms)
    (branch : Room -> Room * Response) : Rooms * Response :=
  match JSMap.get roomId rooms with
  | None => (rooms, NotFound404)
  | Some room =>
      let (room', response) := branch room in
      (JSMap.set roomId room' rooms, response)
  end.

(** [exports.handler] of the player management variant, for the requests on
    a room. *)
Definition handler (env : Env) (req : Request) (rooms0 : Rooms) : Rooms * Response :=
  let now := env_now env in
  let rooms := if env_sweep env then cleanupRooms now rooms0 else rooms0 in
  match req with
  | ReqJoinRoom roomId info =>
      on_room roomId rooms (join_room now (env_sessionId env) info)
  | ReqSyncPlayers roomId sessionId playersArg =>
      on_room roomId rooms
        (handler_sync_players now (env_rnd env) sessionId playersArg)
  | ReqSyncDice roomId sessionId diceValues =>
      on_room roomId rooms (sync_dice now (env_rnd env) sessionId diceValues)
  | ReqSyncTimer roomId sessionId timer =>
      on_room roomId rooms (sync_timer now (env_rnd env) sessionId timer)
  | ReqPoll roomId sessionId since =>
      on_room roomId rooms (poll now sessionId since)
  | ReqLeaveRoom roomId sessionId =>
      match JSMap.get roomId rooms with
      | Some room =>
          let (room', empty) := leave_room now (env_rnd env) sessionId room in
          ((if empty then JSMap.delete roomId rooms
            else JSMap.set roomId room' rooms),
           LeftRoom)
      | None => (rooms, LeftRoom)
      end
  | ReqRoomInfo roomId => on_room roomId rooms (room_info now)
  end.

(** ** The pull client [DDDSyncClient] *)

(** The fields of the client that polling reads and writes.
    [pollInterval] holds the period the running [setInterval] timer was
    armed with ([None]: no timer, the field is [null]). *)
Record Client : Type := mkClient {
  inRoom : bool;
  pollDelay : Q;
  pollInterval : option Q;
  lastPollTimestamp : Since
}.

(** The constructor: [pollDelay = 2000], no timer, no watermark. *)
Definition newClient : Client :=
  {| inRoom := false; pollDelay := 2000; pollInterval := None;
     lastPollTimestamp := None |}.

(** [startPolling()]: [clearInterval] on a running timer, then
    [setInterval(callback, this.pollDelay)]; the period is the value
    [pollDelay] has at this call. *)
Definition startPolling (c : Client) : Client :=
  {| inRoom := inRoom c; pollDelay := pollDelay c;
     pollInterval := Some (pollDelay c);
     lastPollTimestamp := lastPollTimestamp c |}.

Definition stopPolling (c : Client) : Client :=
  {| inRoom := inRoom c; pollDelay := pollDelay c; pollInterval := None;
     lastPollTimestamp := lastPollTimestamp c |}.

(** How one run of the timer callback went: the response had [success]
    and carried [timestamp]; it came without [success]; or [makeRequest]
    (or a callback inside the [try]) threw. *)
Inductive PollResult : Type :=
| PollSuccess (timestamp : Time)
| PollNoSuccess
| PollError.

(** The [catch] branch, the same in both clients. *)
Definition backoff (c : Client) : Client :=
  {| inRoom := inRoom c;
     pollDelay := Qmin (pollDelay c * 1.5) 10000;
     pollInterval := pollInterval c;
     lastPollTimestamp := lastPollTimestamp c |}.

(** The timer callback of sync-client.js.  [complete] is the part after
    [await this.makeRequest(...)]: it runs when the request ends and writes
    whatever the client has become meanwhile.  [callback] is a whole run in
    which nothing happens to the client between the guard
    [if (!this.currentRoomId || !this.sessionId) return] and the end of the
    request. *)
Module NetlifyClient.

Definition complete (res : PollResult) (c : Client) : Client :=
  match res with
  | PollSuccess timestamp =>
      {| inRoom := inRoom c; pollDelay := pollDelay c;
         pollInterval := pollInterval c;
         lastPollTimestamp := Some timestamp |}
  | PollNoSuccess => c
  | PollError => backoff c
  end.

Definition callback (res : PollResult) (c : Client) : Client :=
  if negb (inRoom c) then c else complete res c.

End NetlifyClient.

(** The timer callback of the player management client, which adds
    [this.pollDelay = 2000] on success; [complete] and [callback] as
    above. *)
Module PlayerClient.

Definition complete (res : PollResult) (c : Client) : Client :=
  match res with
  | PollSuccess timestamp =>
      {| inRoom := inRoom c; pollDelay := 2000;
         pollInterval := pollInterval c;
         lastPollTimestamp := Some timestamp |}
  | PollNoSuccess => c
  | PollError => backoff c
  end.

Definition callback (res : PollResult) (c : Client) : Client :=
  if negb (inRoom c) then c else complete res c.

End PlayerClient.

(** [createRoom()] and [joinRoom()] on a successful response: the client is
    in the room and [startPolling()] runs. *)
Definition enterRoom (c : Client) : Client :=
  startPolling
    {| inRoom := true; pollDelay := pollDelay c; pollInterval := pollInterval c;
       lastPollTimestamp := lastPollTimestamp c |}.

(** [leaveRoom()]. *)
Definition leaveRoom (c : Client) : Client :=
  let c1 := stopPolling c in
  {| inRoom := false; pollDelay := pollDelay c1;
     pollInterval := pollInterval c1; lastPollTimestamp := None |}.

(** ** Vocabulary of the statements *)

(** The representation invariant of a [Map]: no key twice. *)
Definition distinct_keys {V : Type} (m : JSMap.t V) : Prop :=
  NoDup (JSMap.keys m).

(** [p.isActive] as the filters of the server read it. *)
Definition active (p : Player) : bool := truthy (pl_isActive p).

(** The number of active records held by sessions other than [sessionId]. *)
Definition activeFromOtherSessions (sessionId : SessionId) (r : Room) : nat :=
  length (filter active (concat (JSMap.values (JSMap.delete sessionId (players r))))).

(** A participant is stale at [now] when its [lastSeen] is more than five
    minutes back. *)
Definition stale (now : Time) (p : Participant) : bool :=
  pa_lastSeen p <? now - 300000.

(** [sessionId] is the key of a stale participant of [r]. *)
Definition stale_session (now : Time) (r : Room) (sessionId : SessionId) : bool :=
  existsb (fun e => String.eqb sessionId (fst e) && stale now (snd e))
    (participants r).

(** A player object carries a [length] attribute that compares above 0. *)
Definition has_positive_length (p : Player) : bool :=
  match pl_length p with
  | Some n => 0 <? n
  | None => false
  end.

(** [selects P sub l]: [sub] holds exactly the elements of [l] that
    satisfy [P], in the order they have in [l]. *)
Inductive selects {A : Type} (P : A -> Prop) : list A -> list A -> Prop :=
| selects_nil : selects P [] []
| selects_skip x sub l : ~ P x -> selects P sub l -> selects P sub (x :: l)
| selects_keep x sub l : P x -> selects P sub l -> selects P (x :: sub) (x :: l).


(** The [messages] and the [timestamp] of a poll response. *)
Definition polled_messages (resp : Response) : option (list Message) :=
  match resp with
  | Polled msgs _ _ _ _ _ _ => Some msgs
  | _ => None
  end.

Definition polled_timestamp (resp : Response) : option Time :=
  match resp with
  | Polled _ _ _ _ _ _ timestamp => Some timestamp
  | _ => None
  end.

(** Every stored record names the session it is stored under, as
    [updatePlayerData] writes it. *)
Definition records_carry_owner (r : Room) : Prop :=
  forall k l p, In (k, l) (players r) -> In p l -> pl_sessionId p = Some k.

(** The invariant of a room: both maps have distinct keys and every
    record names its session. *)
Definition room_ok (r : Room) : Prop :=
  distinct_keys (participants r)
  /\ distinct_keys (players r)
  /\ records_carry_owner r.

(** The roster of everybody but [sessionId]. *)
Definition roster_without (sessionId : SessionId) (r : Room) : list Player :=
  concat (JSMap.values (JSMap.delete sessionId (players r))).

(** The event [addMessage] builds. *)
Definition stamped (now : Time) (rnd : Q) (payload : Payload)
    (fromSession : SessionId) : Message :=
  mkMessage payload fromSession now (inject_Z now + rnd)%Q.

(** *** Rooms and requests of the scenarios *)

Definition someInfo : ParticipantInfo := mkParticipantInfo "Unknown" "Unknown".

(** A player object as a client submits it: a name and its own flag. *)
Definition submitted (name : string) (isActive : bool) : Player :=
  mkPlayer name None (JBool isActive) None None.

(** A room [S1] created at time 1000. *)
Definition room_S1 : Room :=
  fst (create_room 1000 "ROOM01" "S1" someInfo).

(** [S1] rolls [3,5] at 2000, then [S2] joins at 3000. *)
Definition room_rolled : Room :=
  fst (join_room 3000 "S2" someInfo
         (fst (sync_dice 2000 0 "S1" [3; 5] room_S1))).

(** Sessions [S1] .. [S5] in one room. *)
Definition room_five : Room :=
  fold_left (fun room s => fst (join_room 1000 s someInfo room))
    ["S2"; "S3"; "S4"; "S5"] room_S1.

(** Each session of [sessions] submits one active player, in turn, through
    the endpoint that passes the array on. *)
Definition submit_in_turn (sessions : list SessionId) (room : Room) : Room :=
  fold_left
    (fun room s =>
       fst (sync_players 2000 0 s (ArgArray [submitted s true]) room))
    sessions room.

(** The same submissions through the element-wise branch of
    [exports.handler]. *)
Definition submit_in_turn_elementwise (sessions : list SessionId) (room : Room)
    : Room :=
  fold_left
    (fun room s =>
       fst (handler_sync_players 2000 0 s (ArgArray [submitted s true]) room))
    sessions room.

(** Sequences of joins and leaves on one room. *)
Inductive RoomOp : Type :=
| OpJoin (now : Time) (sessionId : SessionId) (info : ParticipantInfo)
| OpLeave (now : Time) (rnd : Q) (sessionId : SessionId).

Definition apply_op (room : Room) (op : RoomOp) : Room :=
  match op with
  | OpJoin now sessionId info => fst (join_room now sessionId info room)
  | OpLeave now rnd sessionId => fst (leave_room now rnd sessionId room)
  end.

Definition run_ops (ops : list RoomOp) (room : Room) : Room :=
  fold_left apply_op ops room.

(** A player object that carries [length: 1] among its attributes. *)
Definition player_with_length : Player :=
  mkPlayer "A" None (JBool true) (Some 1) None.

(** A log of fifty dice rolls. *)
Definition fifty_events : list Message :=
  map (fun n => stamped (Z.of_nat n) 0 (DiceRoll [1; 2]) "S1") (seq 1 50).

Definition room_full_log : Room := with_messages fifty_events room_S1.

(** ** The rest of the registry and of the client *)

(** The loop [do { roomId = generateRoomId() } while (rooms.has(roomId))]:
    [draws] are the ids [generateRoomId()] returns one after the other;
    [None] when every one of them is taken, the loop still running. *)
Fixpoint drawRoomId (draws : list string) (rooms : Rooms) : option string :=
  match draws with
  | [] => None
  | roomId :: rest =>
      if JSMap.has roomId rooms then drawRoomId rest rooms else Some roomId
  end.

(** The registry a request works on: [cleanupRooms()] has run when
    [Math.random() < 0.1]. *)
Definition swept (env : Env) (rooms0 : Rooms) : Rooms :=
  if env_sweep env then cleanupRooms (env_now env) rooms0 else rooms0.

(** [/create-room] in [exports.handler]: the id comes from the loop, the
    session id from [generateSessionId()], and [rooms.set] stores the room
    object whose participants the response then counts.  The result names
    the id the response carries. *)
Definition handler_create_room (env : Env) (draws : list string)
    (info : ParticipantInfo) (rooms0 : Rooms)
    : option (Rooms * string * Response) :=
  let rooms := swept env rooms0 in
  match drawRoomId draws rooms with
  | None => None
  | Some roomId =>
      let (room, response) :=
        create_room (env_now env) roomId (env_sessionId env) info in
      Some (JSMap.set roomId room rooms, roomId, response)
  end.

(** The room id a request carries. *)
Definition request_room (req : Request) : string :=
  match req with
  | ReqJoinRoom roomId _ => roomId
  | ReqSyncPlayers roomId _ _ => roomId
  | ReqSyncDice roomId _ _ => roomId
  | ReqSyncTimer roomId _ _ => roomId
  | ReqPoll roomId _ _ => roomId
  | ReqLeaveRoom roomId _ => roomId
  | ReqRoomInfo roomId => roomId
  end.

(** The answer to a request whose room is not in the registry: 404, except
    for [/leave-room], which answers success in any case. *)
Definition answer_without_room (req : Request) : Response :=
  match req with
  | ReqLeaveRoom _ _ => LeftRoom
  | _ => NotFound404
  end.

(** The timestamps of a log never go down from one event to the next. *)
Definition log_ordered (ms : list Message) : Prop :=
  StronglySorted (fun older newer => msg_timestamp older <= msg_timestamp newer) ms.

(** No event of the log is later than [now]. *)
Definition log_upto (now : Time) (ms : list Message) : Prop :=
  Forall (fun msg => msg_timestamp msg <= now) ms.

(** What a branch does to the log: nothing, or one event appended at the
    reading of the request. *)
Definition appends_at_most_one (now : Time) (rnd : Q) (sessionId : SessionId)
    (before after : list Message) : Prop :=
  after = before
  \/ exists payload,
       after = slice_last 50 (before ++ [stamped now rnd payload sessionId]).

(** The invariant of the registry: distinct room ids, and every room
    satisfies the room invariant. *)
Definition registry_ok (rooms : Rooms) : Prop :=
  distinct_keys rooms /\ Forall (fun e => room_ok (snd e)) rooms.

(** The log holds at most 50 events and at most one more than [before]. *)
Definition log_within (before : list Message) (r : Room) : Prop :=
  (length (messages r) <= 50)%nat
  /\ (length (messages r) <= S (length before))%nat.

(** What happens to a client, one after the other: it enters a room
    ([createRoom()] or [joinRoom()] succeeded), it leaves, or the timer
    callback runs with some outcome. *)
Inductive ClientEvent : Type :=
| EvEnter
| EvLeave
| EvTick (res : PollResult).

Definition client_step (callback : PollResult -> Client -> Client)
    (c : Client) (ev : ClientEvent) : Client :=
  match ev with
  | EvEnter => enterRoom c
  | EvLeave => leaveRoom c
  | EvTick res => callback res c
  end.

Definition run_client (callback : PollResult -> Client -> Client)
    (evs : list ClientEvent) (c : Client) : Client :=
  fold_left (client_step callback) evs c.

(** The [timestamp] of the last successful poll of [results], [start] when
    there is none. *)
Definition last_success (results : list PollResult) (start : Since) : Since :=
  fold_left
    (fun since res =>
       match res with
       | PollSuccess timestamp => Some timestamp
       | _ => since
       end)
    results start.

(** A registry with the room of the scenarios, and one whose only
    participant was last seen long ago. *)
Definition registry_rolled : Rooms := [("ROOM01", room_rolled)].

Definition registry_two : Rooms :=
  [("ROOM01", room_rolled); ("ROOM02", fst (create_room 5000 "ROOM02" "T1" someInfo))].

(** * Properties *)

(** ** [Map] operations *)

Section MapFacts.
Context {V : Type}.
Implicit Types (m : JSMap.t V) (k : SessionId) (v : V).

Lemma get_set_eq k v m : JSMap.get k (JSMap.set k v m) = Some v.
Proof.
  induction m as [|[k' v'] m IH]; simpl.
  - now rewrite String.eqb_refl.
  - destruct (String.eqb k k') eqn:E; simpl.
    + now rewrite String.eqb_refl.
    + now rewrite E.
Qed.

Lemma get_set_ne k k' v m :
  k' <> k -> JSMap.get k' (JSMap.set k v m) = JSMap.get k' m.
Proof.
  intros Hne. apply String.eqb_neq in Hne.
  induction m as [|[k1 v1] m IH]; simpl.
  - now rewrite Hne.
  - destruct (String.eqb k k1) eqn:E; simpl.
    + apply String.eqb_eq in E; subst k1. now rewrite Hne.
    + now rewrite IH.
Qed.

Lemma get_delete_eq k m : JSMap.get k (JSMap.delete k m) = None.
Proof.
  induction m as [|[k' v'] m IH]; simpl; [reflexivity|].
  destruct (String.eqb k k') eqn:E; simpl; [assumption|].
  now rewrite E.
Qed.

Lemma get_delete_ne k k' m :
  k' <> k -> JSMap.get k' (JSMap.delete k m) = JSMap.get k' m.
Proof.
  intros Hne. apply String.eqb_neq in Hne.
  induction m as [|[k1 v1] m IH]; simpl; [reflexivity|].
  destruct (String.eqb k k1) eqn:E; simpl.
  - apply String.eqb_eq in E; subst k1. now rewrite Hne.
  - now rewrite IH.
Qed.

Lemma delete_absent k m : JSMap.get k m = None -> JSMap.delete k m = m.
Proof.
  induction m as [|[k' v'] m IH]; simpl; [reflexivity|].
  destruct (String.eqb k k') eqn:E; [discriminate|].
  intros H. simpl. now rewrite IH.
Qed.

Lemma delete_set_eq k v m :
  JSMap.delete k (JSMap.set k v m) = JSMap.delete k m.
Proof.
  induction m as [|[k' v'] m IH]; simpl.
  - now rewrite String.eqb_refl.
  - destruct (String.eqb k k') eqn:E; simpl.
    + now rewrite String.eqb_refl.
    + now rewrite E, IH.
Qed.

Lemma delete_delete k m :
  JSMap.delete k (JSMap.delete k m) = JSMap.delete k m.
Proof. apply delete_absent, get_delete_eq. Qed.

Lemma delete_comm k k' m :
  JSMap.delete k (JSMap.delete k' m) = JSMap.delete k' (JSMap.delete k m).
Proof.
  induction m as [|[k1 v1] m IH]; simpl; [reflexivity|].
  destruct (String.eqb k' k1) eqn:E', (String.eqb k k1) eqn:E;
    simpl; rewrite ?E, ?E'; simpl; now rewrite ?IH.
Qed.

Lemma keys_delete k m :
  JSMap.keys (JSMap.delete k m)
  = filter (fun k' => negb (String.eqb k k')) (JSMap.keys m).
Proof.
  induction m as [|[k' v'] m IH]; simpl; [reflexivity|].
  destruct (String.eqb k k'); simpl; now rewrite IH.
Qed.

Lemma in_keys_set k k' v m :
  In k' (JSMap.keys (JSMap.set k v m)) <-> k' = k \/ In k' (JSMap.keys m).
Proof.
  induction m as [|[k1 v1] m IH]; simpl.
  - intuition.
  - destruct (String.eqb k k1) eqn:E; simpl.
    + apply String.eqb_eq in E; subst k1. intuition.
    + rewrite IH. intuition.
Qed.

Lemma distinct_keys_set k v m :
  distinct_keys m -> distinct_keys (JSMap.set k v m).
Proof.
  unfold distinct_keys.
  induction m as [|[k1 v1] m IH]; simpl; intros Hnd.
  - constructor; [intros []|constructor].
  - inversion Hnd as [|? ? Hnotin Hnd']; subst.
    destruct (String.eqb k k1) eqn:E; simpl.
    + apply String.eqb_eq in E; subst k1. now constructor.
    + constructor; [|now apply IH].
      rewrite in_keys_set. intros [->|Hin]; [|contradiction].
      now rewrite String.eqb_refl in E.
Qed.

Lemma distinct_keys_delete k m :
  distinct_keys m -> distinct_keys (JSMap.delete k m).
Proof.
  unfold distinct_keys. rewrite keys_delete. apply NoDup_filter.
Qed.

Lemma get_none_not_in k m :
  JSMap.get k m = None <-> ~ In k (JSMap.keys m).
Proof.
  induction m as [|[k' v'] m IH]; simpl; [intuition|].
  destruct (String.eqb k k') eqn:E.
  - apply String.eqb_eq in E; subst. split; [discriminate|intuition].
  - apply String.eqb_neq in E. rewrite IH. intuition congruence.
Qed.

End MapFacts.

(** ** The event log *)

Lemma slice_last_suffix {A : Type} (n : nat) (l : list A) :
  exists older, l = older ++ slice_last n l.
Proof.
  exists (firstn (length l - n) l). unfold slice_last.
  now rewrite firstn_skipn.
Qed.

Lemma slice_last_length {A : Type} (n : nat) (l : list A) :
  length (slice_last n l) = Nat.min n (length l).
Proof. unfold slice_last. rewrite length_skipn. lia. Qed.

Lemma slice_last_short {A : Type} (n : nat) (l : list A) :
  (length l <= n)%nat -> slice_last n l = l.
Proof.
  intros H. unfold slice_last.
  replace (length l - n)%nat with 0%nat by lia. reflexivity.
Qed.

Lemma addMessage_messages now rnd payload from r :
  messages (addMessage now rnd payload from r)
  = slice_last 50 (messages r ++ [stamped now rnd payload from]).
Proof.
  unfold addMessage, stamped. simpl.
  destruct (50 <? _)%nat eqn:E; [reflexivity|].
  apply Nat.ltb_ge in E. now rewrite slice_last_short.
Qed.

Lemma addMessage_last now rnd payload from r :
  exists older,
    messages (addMessage now rnd payload from r)
    = older ++ [stamped now rnd payload from].
Proof.
  rewrite addMessage_messages. unfold slice_last.
  rewrite length_app; simpl.
  rewrite skipn_app.
  exists (skipn (length (messages r) + 1 - 50) (messages r)).
  f_equal.
  replace (length (messages r) + 1 - 50 - length (messages r))%nat
    with 0%nat by lia.
  reflexivity.
Qed.

(** C6.  After any [addMessage] the log holds at most 50 events, the
    appended event is the last one, and a log that held 50 events holds
    the 49 newest of them, in their order, followed by the new event: the
    oldest was dropped. *)
Theorem addMessage_keeps_fifty_newest now rnd payload from r :
  (length (messages (addMessage now rnd payload from r)) <= 50)%nat
  /\ (exists older,
        messages (addMessage now rnd payload from r)
        = older ++ [stamped now rnd payload from])
  /\ (length (messages r) = 50%nat ->
      messages (addMessage now rnd payload from r)
      = skipn 1 (messages r) ++ [stamped now rnd payload from]).
Proof.
  split; [|split].
  - rewrite addMessage_messages, slice_last_length. lia.
  - apply addMessage_last.
  - intros Hlen. rewrite addMessage_messages. unfold slice_last.
    rewrite length_app, Hlen.
    change (50 + length [stamped now rnd payload from] - 50)%nat with 1%nat.
    rewrite skipn_app, Hlen. reflexivity.
Qed.

Lemma addMessage_keeps_fifty_newest_witness :
  length (messages room_full_log) = 50%nat
  /\ messages (addMessage 99 0 (DiceRoll [6; 6]) "S2" room_full_log)
     = skipn 1 (messages room_full_log) ++ [stamped 99 0 (DiceRoll [6; 6]) "S2"].
Proof.
  split; [reflexivity|].
  apply (addMessage_keeps_fifty_newest 99 0 (DiceRoll [6; 6]) "S2" room_full_log).
  reflexivity.
Defined.

Lemma selects_filter {A : Type} (P : A -> Prop) (f : A -> bool) (l : list A) :
  (forall x, f x = true <-> P x) -> selects P (filter f l) l.
Proof.
  intros Hf. induction l as [|x l IH]; simpl; [constructor|].
  destruct (f x) eqn:E.
  - apply selects_keep; [now apply Hf|assumption].
  - apply selects_skip; [|assumption].
    intros HP. apply Hf in HP. congruence.
Qed.

Lemma selects_In {A : Type} (P : A -> Prop) (sub l : list A) :
  selects P sub l -> forall x, In x sub <-> In x l /\ P x.
Proof.
  induction 1 as [|y sub l Hn _ IH|y sub l Hy _ IH]; intros x; simpl.
  - tauto.
  - rewrite IH. split; [tauto|]. intros [[->|Hin] HP]; [contradiction|tauto].
  - rewrite IH. split; [|tauto]. intros [->|[Hin HP]]; tauto.
Qed.

(** ** What the purge and the participant refresh leave alone *)

Lemma purge_step_fields t r e :
  id (purge_step t r e) = id r
  /\ currentDiceValues (purge_step t r e) = currentDiceValues r
  /\ timerState (purge_step t r e) = timerState r
  /\ messages (purge_step t r e) = messages r
  /\ createdAt (purge_step t r e) = createdAt r
  /\ lastActivity (purge_step t r e) = lastActivity r.
Proof.
  destruct e as [k p]. unfold purge_step.
  destruct (pa_lastSeen p <? t); simpl; repeat split.
Qed.

Lemma purge_fields t l r :
  id (fold_left (purge_step t) l r) = id r
  /\ currentDiceValues (fold_left (purge_step t) l r) = currentDiceValues r
  /\ timerState (fold_left (purge_step t) l r) = timerState r
  /\ messages (fold_left (purge_step t) l r) = messages r
  /\ createdAt (fold_left (purge_step t) l r) = createdAt r
  /\ lastActivity (fold_left (purge_step t) l r) = lastActivity r.
Proof.
  revert r. induction l as [|e l IH]; intros r; simpl.
  - repeat split.
  - destruct (IH (purge_step t r e)) as (H1 & H2 & H3 & H4 & H5 & H6).
    destruct (purge_step_fields t r e) as (G1 & G2 & G3 & G4 & G5 & G6).
    repeat split; congruence.
Qed.

Lemma getParticipantCount_messages now r :
  messages (fst (getParticipantCount now r)) = messages r.
Proof. unfold getParticipantCount; simpl. apply purge_fields. Qed.

Lemma updateParticipant_fields now sid r :
  messages (updateParticipant now sid r) = messages r
  /\ players (updateParticipant now sid r) = players r
  /\ currentDiceValues (updateParticipant now sid r) = currentDiceValues r
  /\ timerState (updateParticipant now sid r) = timerState r.
Proof.
  unfold updateParticipant.
  destruct (JSMap.get sid (participants r)); simpl; repeat split.
Qed.

Lemma poll_messages now sid since r :
  messages (fst (poll now sid since r)) = messages r.
Proof.
  unfold poll.
  destruct (getParticipantCount now (updateParticipant now sid r)) as [r2 n] eqn:E.
  simpl.
  change r2 with (fst (r2, n)). rewrite <- E.
  rewrite getParticipantCount_messages.
  apply updateParticipant_fields.
Qed.

(** C5.  With no watermark [getRecentMessages] returns the last 10 events
    of the log (all of them when there are fewer); with a watermark [t] it
    returns exactly the events whose timestamp is greater than [t], in the
    order of the log.  The call does not touch the log: the whole [/poll]
    branch around it leaves [messages] as it was, so the same watermark
    gets the same events again as long as nothing is appended. *)
Theorem getRecentMessages_spec (r : Room) :
  (exists older,
      messages r = older ++ getRecentMessages None r
      /\ length (getRecentMessages None r) = Nat.min 10 (length (messages r)))
  /\ (forall t,
        selects (fun msg => t < msg_timestamp msg)
          (getRecentMessages (Some t) r) (messages r))
  /\ (forall now sessionId since since',
        messages (fst (poll now sessionId since' r)) = messages r
        /\ getRecentMessages since (fst (poll now sessionId since' r))
           = getRecentMessages since r).
Proof.
  split; [|split].
  - change (getRecentMessages None r) with (slice_last 10 (messages r)).
    destruct (slice_last_suffix 10 (messages r)) as [older H].
    exists older. split; [assumption|apply slice_last_length].
  - intros t. simpl. apply selects_filter.
    intros msg. apply Z.ltb_lt.
  - intros now sid since since'.
    pose proof (poll_messages now sid since' r) as H.
    split; [assumption|].
    unfold getRecentMessages. now rewrite H.
Qed.

(** C7.  The [messages] of a poll response are exactly the events of
    [getRecentMessages(since)] that come from another session, in their
    order, and its [timestamp] is the clock reading of this request.
    After [S1] rolled [3,5], a poll of [S1] without watermark gets no
    event, a poll of [S2] gets the dice roll of [S1]. *)
Theorem poll_excludes_own_events now sessionId since r :
  (exists msgs,
      polled_messages (snd (poll now sessionId since r)) = Some msgs
      /\ selects (fun msg => msg_fromSession msg <> sessionId)
           msgs (getRecentMessages since r))
  /\ polled_timestamp (snd (poll now sessionId since r)) = Some now
  /\ polled_messages (snd (poll 4000 "S1" None room_rolled)) = Some []
  /\ polled_messages (snd (poll 4000 "S2" None room_rolled))
     = Some [stamped 2000 0 (DiceRoll [3; 5]) "S1"].
Proof.
  split; [|split; [|split]].
  - unfold poll.
    destruct (getParticipantCount now (updateParticipant now sessionId r))
      as [r2 n].
    simpl. eexists. split; [reflexivity|].
    replace (getRecentMessages since (updateParticipant now sessionId r))
      with (getRecentMessages since r).
    + apply selects_filter. intros msg.
      rewrite negb_true_iff. apply String.eqb_neq.
    + unfold getRecentMessages.
      now destruct (updateParticipant_fields now sessionId r) as [-> _].
  - unfold poll.
    destruct (getParticipantCount now (updateParticipant now sessionId r)).
    reflexivity.
  - reflexivity.
  - reflexivity.
Qed.

(** ** Players of the other sessions *)

Lemma updatePlayerData_players now sid arg r :
  JSMap.delete sid (players (room_of (updatePlayerData now sid arg r)))
  = JSMap.delete sid (players r).
Proof.
  unfold updatePlayerData.
  destruct arg as [|l|o]; simpl.
  - apply delete_delete.
  - destruct (0 <? length l)%nat; simpl.
    + now rewrite delete_set_eq, delete_delete.
    + apply delete_delete.
  - destruct (pl_length o) as [n|]; [destruct (0 <? n)|]; simpl;
      apply delete_delete.
Qed.



(** ** The staleness purge *)

Lemma filter_filter_and {A : Type} (f g : A -> bool) (l : list A) :
  filter f (filter g l) = filter (fun x => g x && f x) l.
Proof.
  induction l as [|x l IH]; simpl; [reflexivity|].
  destruct (g x); simpl; [destruct (f x)|]; now rewrite IH.
Qed.

(** The loop, run over the entries [l], deletes from both maps the keys of
    the stale entries of [l]. *)
Lemma purge_maps t l r :
  let gone k := existsb (fun e => String.eqb k (fst e) && (pa_lastSeen (snd e) <? t)) l in
  participants (fold_left (purge_step t) l r)
  = filter (fun e => negb (gone (fst e))) (participants r)
  /\ players (fold_left (purge_step t) l r)
     = filter (fun e => negb (gone (fst e))) (players r).
Proof.
  revert r. induction l as [|[k p] l IH]; intros r; simpl.
  - split; symmetry; apply forallb_filter_id; apply forallb_forall; reflexivity.
  - destruct (IH (purge_step t r (k, p))) as [Hpa Hpl]. simpl in Hpa, Hpl.
    rewrite Hpa, Hpl. unfold purge_step.
    destruct (pa_lastSeen p <? t) eqn:E; simpl.
    + unfold JSMap.delete. rewrite !filter_filter_and.
      split; apply filter_ext; intros [k' v']; simpl;
        rewrite (String.eqb_sym k' k), andb_true_r, negb_orb; reflexivity.
    + split; apply filter_ext; intros [k' v']; simpl;
        now rewrite andb_false_r.
Qed.

Lemma stale_session_of_entry now r k p :
  distinct_keys (participants r) -> In (k, p) (participants r) ->
  stale_session now r k = stale now p.
Proof.
  unfold stale_session, distinct_keys.
  induction (participants r) as [|[k1 p1] l IH]; simpl; intros Hnd Hin;
    [contradiction|].
  inversion Hnd as [|? ? Hnotin Hnd']; subst.
  destruct Hin as [Heq|Hin].
  - inversion Heq; subst. rewrite String.eqb_refl; simpl.
    destruct (stale now p); [reflexivity|]. simpl.
    apply not_true_is_false. intros Hex.
    apply existsb_exists in Hex. destruct Hex as [[k2 p2] [Hin2 Hb]].
    simpl in Hb. apply andb_prop in Hb. destruct Hb as [Hk _].
    apply String.eqb_eq in Hk; subst k2.
    apply Hnotin. change k with (fst (k, p2)). now apply in_map.
  - assert (Hne : String.eqb k k1 = false).
    { apply String.eqb_neq. intros ->. apply Hnotin.
      change k1 with (fst (k1, p)). now apply in_map. }
    rewrite Hne. simpl. now apply IH.
Qed.

(** The purge, on a map with distinct keys. *)
Lemma getParticipantCount_fresh now r :
  distinct_keys (participants r) ->
  let fresh := filter (fun e => negb (stale now (snd e))) (participants r) in
  participants (fst (getParticipantCount now r)) = fresh
  /\ snd (getParticipantCount now r) = length fresh
  /\ players (fst (getParticipantCount now r))
     = filter (fun e => negb (stale_session now r (fst e))) (players r)
  /\ messages (fst (getParticipantCount now r)) = messages r
  /\ currentDiceValues (fst (getParticipantCount now r)) = currentDiceValues r
  /\ timerState (fst (getParticipantCount now r)) = timerState r.
Proof.
  intros Hnd fresh. unfold getParticipantCount. simpl.
  change (now - 5 * 60 * 1000) with (now - 300000).
  destruct (purge_maps (now - 300000) (participants r) r) as [Hpa Hpl].
  simpl in Hpa, Hpl.
  assert (Hfresh : participants
            (fold_left (purge_step (now - 300000)) (participants r) r) = fresh).
  { rewrite Hpa. unfold fresh. apply filter_ext_in.
    intros [k p] Hin. simpl. f_equal.
    apply (stale_session_of_entry now r k p Hnd Hin). }
  split; [assumption|].
  split; [unfold JSMap.size; now rewrite Hfresh|].
  split; [exact Hpl|].
  destruct (purge_fields (now - 300000) (participants r) r)
    as (_ & H2 & H3 & H4 & _).
  auto.
Qed.

(** ** The element-wise [/sync-players] branch *)

Lemma updatePlayerData_object_players now sid o r :
  players (room_of (updatePlayerData now sid (ArgObject o) r))
  = JSMap.delete sid (players r).
Proof.
  unfold updatePlayerData.
  destruct (pl_length o) as [n|]; [destruct (0 <? n)|]; reflexivity.
Qed.

Lemma updatePlayerData_object_messages now sid o r :
  messages (room_of (updatePlayerData now sid (ArgObject o) r)) = messages r.
Proof.
  unfold updatePlayerData.
  destruct (pl_length o) as [n|]; [destruct (0 <? n)|]; reflexivity.
Qed.

Lemma forEach_player_players now sid l r :
  l <> [] ->
  players (room_of (forEach_player now sid l r)) = JSMap.delete sid (players r).
Proof.
  revert r. induction l as [|p rest IH]; intros r Hne; [congruence|].
  cbn [forEach_player].
  pose proof (updatePlayerData_object_players now sid
                (playerWithSession sid r p) r) as Hp.
  destruct (updatePlayerData now sid (ArgObject (playerWithSession sid r p)) r)
    as [r1|r1]; simpl in Hp.
  - destruct rest as [|q rest'].
    + exact Hp.
    + rewrite IH by discriminate. rewrite Hp. apply delete_delete.
  - exact Hp.
Qed.

Lemma forEach_player_messages now sid l r :
  messages (room_of (forEach_player now sid l r)) = messages r.
Proof.
  revert r. induction l as [|p rest IH]; intros r; [reflexivity|].
  cbn [forEach_player].
  pose proof (updatePlayerData_object_messages now sid
                (playerWithSession sid r p) r) as Hm.
  destruct (updatePlayerData now sid (ArgObject (playerWithSession sid r p)) r)
    as [r1|r1]; simpl in Hm.
  - now rewrite IH.
  - exact Hm.
Qed.

(** Without a positive [length] attribute no element makes the loop throw. *)
Lemma forEach_player_returns now sid l r :
  forallb (fun p => negb (has_positive_length p)) l = true ->
  exists r', forEach_player now sid l r = Returned r'.
Proof.
  revert r. induction l as [|p rest IH]; intros r Hall; simpl.
  - now exists r.
  - simpl in Hall. apply andb_prop in Hall. destruct Hall as [Hp Hrest].
    unfold updatePlayerData, has_positive_length in *. simpl.
    destruct (pl_length p) as [n|]; [|now apply IH].
    apply negb_true_iff in Hp. rewrite Hp. now apply IH.
Qed.

Lemma getParticipantCount_players_get now r k :
  JSMap.get k (players r) = None ->
  JSMap.get k (players (fst (getParticipantCount now r))) = None.
Proof.
  unfold getParticipantCount; simpl.
  destruct (purge_maps (now - 5 * 60 * 1000) (participants r) r) as [_ Hpl].
  simpl in Hpl. rewrite Hpl.
  rewrite !get_none_not_in. intros Hnotin Hin. apply Hnotin.
  unfold JSMap.keys in *. apply in_map_iff in Hin.
  destruct Hin as [e [He Hin]]. apply filter_In in Hin.
  apply in_map_iff. exists e. tauto.
Qed.

Lemma roster_without_owner sid r :
  records_carry_owner r ->
  Forall (fun p => pl_sessionId p <> Some sid) (roster_without sid r).
Proof.
  intros Hown. apply Forall_forall. intros p Hin.
  unfold roster_without in Hin. apply in_concat in Hin.
  destruct Hin as [l [Hl Hp]].
  unfold JSMap.values in Hl. apply in_map_iff in Hl.
  destruct Hl as [[k l'] [Heq Hin]]. simpl in Heq; subst l'.
  unfold JSMap.delete in Hin. apply filter_In in Hin.
  destruct Hin as [Hin Hk]. simpl in Hk.
  rewrite (Hown k l p Hin Hp).
  apply negb_true_iff, String.eqb_neq in Hk. congruence.
Qed.

(** What the branch does once the loop has returned. *)
Lemma handler_sync_players_returned now rnd sid l r r2 :
  forEach_player now sid l (updateParticipant now sid r) = Returned r2 ->
  let r3 := addMessage now rnd (PlayersUpdate (getPlayerData r2)) sid r2 in
  handler_sync_players now rnd sid (ArgArray l) r
  = (fst (getParticipantCount now r3),
     SyncedPlayers (snd (getParticipantCount now r3))
       (getActivePlayerCount (fst (getParticipantCount now r3)))
       (getPlayerData (fst (getParticipantCount now r3)))).
Proof.
  intros Hloop r3. unfold handler_sync_players. rewrite Hloop.
  fold r3. now destruct (getParticipantCount now r3).
Qed.

Lemma handler_sync_players_players now rnd sid l r :
  l <> [] ->
  JSMap.get sid (players (fst (handler_sync_players now rnd sid (ArgArray l) r)))
  = None.
Proof.
  intros Hne.
  pose proof (forEach_player_players now sid l (updateParticipant now sid r) Hne)
    as Hpl.
  destruct (forEach_player now sid l (updateParticipant now sid r))
    as [r2|r2] eqn:Hloop; simpl in Hpl.
  - rewrite (handler_sync_players_returned now rnd sid l r r2 Hloop).
    cbn [fst]. apply getParticipantCount_players_get.
    change (players (addMessage now rnd (PlayersUpdate (getPlayerData r2)) sid r2))
      with (players r2).
    rewrite Hpl. apply get_delete_eq.
  - unfold handler_sync_players. rewrite Hloop. simpl.
    rewrite Hpl. apply get_delete_eq.
Qed.

Lemma handler_sync_players_event now rnd sid l r :
  l <> [] ->
  forallb (fun p => negb (has_positive_length p)) l = true ->
  (exists older,
      messages (fst (handler_sync_players now rnd sid (ArgArray l) r))
      = older ++ [stamped now rnd (PlayersUpdate (roster_without sid r)) sid])
  /\ exists pc apc roster,
      snd (handler_sync_players now rnd sid (ArgArray l) r)
      = SyncedPlayers pc apc roster.
Proof.
  intros Hne Hall.
  destruct (forEach_player_returns now sid l (updateParticipant now sid r) Hall)
    as [r2 Hloop].
  pose proof (forEach_player_players now sid l (updateParticipant now sid r) Hne)
    as Hpl.
  rewrite Hloop in Hpl. simpl in Hpl.
  rewrite (handler_sync_players_returned now rnd sid l r r2 Hloop).
  cbn [fst snd].
  split; [|eauto].
  rewrite getParticipantCount_messages.
  assert (Hroster : getPlayerData r2 = roster_without sid r).
  { unfold getPlayerData, roster_without. rewrite Hpl.
    now destruct (updateParticipant_fields now sid r) as (_ & -> & _). }
  rewrite Hroster. apply addMessage_last.
Qed.

(** C3, as the code has it.  A [/sync-players] request of the element-wise
    branch with a non-empty [players] array leaves the caller without an
    entry in [room.players], whatever the player objects hold.  When no
    player object carries a [length] attribute above 0, the request is
    answered with success and appends a players-update event whose roster
    is that of the other sessions only: none of its records belongs to the
    caller. *)
Theorem handler_sync_players_drops_caller now rnd sessionId l r :
  l <> [] ->
  JSMap.get sessionId
    (players (fst (handler_sync_players now rnd sessionId (ArgArray l) r)))
  = None
  /\ (forallb (fun p => negb (has_positive_length p)) l = true ->
      (exists older,
          messages (fst (handler_sync_players now rnd sessionId (ArgArray l) r))
          = older
            ++ [stamped now rnd (PlayersUpdate (roster_without sessionId r))
                  sessionId])
      /\ (exists pc apc roster,
             snd (handler_sync_players now rnd sessionId (ArgArray l) r)
             = SyncedPlayers pc apc roster)
      /\ (records_carry_owner r ->
          Forall (fun p => pl_sessionId p <> Some sessionId)
            (roster_without sessionId r))).
Proof.
  intros Hne. split.
  - now apply handler_sync_players_players.
  - intros Hall.
    destruct (handler_sync_players_event now rnd sessionId l r Hne Hall)
      as [Hev Hresp].
    split; [exact Hev|]. split; [exact Hresp|].
    apply roster_without_owner.
Qed.

Lemma handler_sync_players_drops_caller_witness :
  [submitted "A" true] <> []
  /\ JSMap.get "S1"
       (players
          (fst (handler_sync_players 3000 0 "S1" (ArgArray [submitted "A" true])
                  (submit_in_turn ["S1"; "S2"] room_five))))
     = None
  /\ exists older,
       messages
         (fst (handler_sync_players 3000 0 "S1" (ArgArray [submitted "A" true])
                 (submit_in_turn ["S1"; "S2"] room_five)))
       = older
         ++ [stamped 3000 0
               (PlayersUpdate
                  (roster_without "S1" (submit_in_turn ["S1"; "S2"] room_five)))
               "S1"].
Proof.
  assert (Hne : [submitted "A" true] <> []) by discriminate.
  split; [exact Hne|].
  destruct (handler_sync_players_drops_caller 3000 0 "S1" [submitted "A" true]
              (submit_in_turn ["S1"; "S2"] room_five) Hne) as [Hgone Hevent].
  split; [exact Hgone|].
  destruct (Hevent eq_refl) as [Hlog _]. exact Hlog.
Defined.

(** C3 as stated fails when a player object carries [length: 1]: the guard
    of [updatePlayerData] passes, [playersArray.map] throws, the request
    is answered 500 and no players-update event is appended. *)
Lemma handler_sync_players_length_counterexample :
  snd (handler_sync_players 2000 0 "S1" (ArgArray [player_with_length]) room_five)
  = ServerError500
  /\ messages
       (fst (handler_sync_players 2000 0 "S1" (ArgArray [player_with_length])
               room_five))
     = []
  /\ ~ (exists older roster,
          messages
            (fst (handler_sync_players 2000 0 "S1"
                    (ArgArray [player_with_length]) room_five))
          = older ++ [stamped 2000 0 (PlayersUpdate roster) "S1"]).
Proof.
  split; [reflexivity|]. split; [reflexivity|].
  intros (older & roster & H).
  change (messages
            (fst (handler_sync_players 2000 0 "S1"
                    (ArgArray [player_with_length]) room_five)))
    with (@nil Message) in H.
  destruct older; discriminate.
Qed.

(** ** Requests of a session that is not a participant *)


Lemma updateParticipant_absent now sid r :
  JSMap.get sid (participants r) = None -> updateParticipant now sid r = r.
Proof. intros H. unfold updateParticipant. now rewrite H. Qed.




Lemma getParticipantCount_fields now r :
  currentDiceValues (fst (getParticipantCount now r)) = currentDiceValues r
  /\ timerState (fst (getParticipantCount now r)) = timerState r
  /\ messages (fst (getParticipantCount now r)) = messages r.
Proof.
  unfold getParticipantCount; cbn [fst].
  destruct (purge_fields (now - 5 * 60 * 1000) (participants r) r)
    as (_ & Hd & Ht & Hm & _).
  auto.
Qed.

Lemma sync_dice_effect now rnd sid values r :
  currentDiceValues (fst (sync_dice now rnd sid values r)) = Some values
  /\ exists older,
       messages (fst (sync_dice now rnd sid values r))
       = older ++ [stamped now rnd (DiceRoll values) sid].
Proof.
  unfold sync_dice.
  set (r3 := addMessage now rnd (DiceRoll values) sid _).
  destruct (getParticipantCount_fields now r3) as (Hd & _ & Hm).
  destruct (getParticipantCount now r3) as [r4 n].
  cbn [fst] in *. rewrite Hd, Hm. split; [reflexivity|].
  subst r3. apply addMessage_last.
Qed.

Lemma sync_timer_effect now rnd sid timer r :
  let written :=
    mkTimerState (ts_isRunning timer) (ts_remainingTime timer)
      (ts_duration timer) (ts_startTime timer) (Some sid) (Some now) in
  timerState (fst (sync_timer now rnd sid timer r)) = written
  /\ exists older,
       messages (fst (sync_timer now rnd sid timer r))
       = older ++ [stamped now rnd (TimerSync written) sid].
Proof.
  intros written. unfold sync_timer.
  set (r3 := addMessage now rnd _ sid _).
  destruct (getParticipantCount_fields now r3) as (_ & Ht & Hm).
  destruct (getParticipantCount now r3) as [r4 n].
  cbn [fst] in *. rewrite Ht, Hm. split; [reflexivity|].
  subst r3. apply addMessage_last.
Qed.





(** ** The cap on active players *)

(** C1, at the scenario of the claim.  Five sessions submit one active
    player each, in turn: all five records are stored active, the fifth
    included.  A single session that submits five inactive players to a
    room without active players gets five active records.  Through the
    element-wise branch of [exports.handler] the same five submissions
    leave no record at all. *)
Theorem five_sessions_five_active :
  getActivePlayerCount
    (submit_in_turn ["S1"; "S2"; "S3"; "S4"; "S5"] room_five) = 5%nat
  /\ JSMap.get "S5"
       (players (submit_in_turn ["S1"; "S2"; "S3"; "S4"; "S5"] room_five))
     = Some [mkPlayer "S5" (Some "S5") (JBool true) None (Some 2000)]
  /\ getActivePlayerCount
       (fst (sync_players 2000 0 "S1"
               (ArgArray (map (fun name => submitted name false)
                            ["A"; "B"; "C"; "D"; "E"]))
               room_S1))
     = 5%nat
  /\ getPlayerData
       (submit_in_turn_elementwise ["S1"; "S2"; "S3"; "S4"; "S5"] room_five)
     = [].
Proof. repeat split. Qed.

(** C2, at a failing input.  [updatePlayerData] stores a record submitted
    with [isActive: true] as active whatever the number of active records
    of the other sessions is; so with four active records held by [S1] ..
    [S4] and no record of [S5] stored before the call, the record [S5]
    submits is stored active. *)
Theorem updatePlayerData_trusts_submitted_flag :
  (forall now sessionId others name,
      pl_isActive (updatedPlayer now sessionId others (submitted name true))
      = JBool true)
  /\ JSMap.get "S5" (players (submit_in_turn ["S1"; "S2"; "S3"; "S4"] room_five))
     = None
  /\ activeFromOtherSessions "S5"
       (submit_in_turn ["S1"; "S2"; "S3"; "S4"] room_five) = 4%nat
  /\ JSMap.get "S5"
       (players
          (room_of
             (updatePlayerData 3000 "S5" (ArgArray [submitted "E" true])
                (submit_in_turn ["S1"; "S2"; "S3"; "S4"] room_five))))
     = Some [mkPlayer "E" (Some "S5") (JBool true) None (Some 3000)].
Proof.
  split; [|repeat split].
  intros now sessionId others name. simpl.
  now destruct (others <? 4)%nat.
Qed.

(** ** The polling timer of the client *)

Lemma backoff_pollDelay c :
  (pollDelay (backoff c) <= 10000)%Q
  /\ ((pollDelay c * 1.5 <= 10000)%Q ->
      (pollDelay (backoff c) == pollDelay c * 1.5)%Q).
Proof.
  unfold backoff; simpl. split.
  - apply Q.le_min_r.
  - intros H. now apply Q.min_l.
Qed.

(** C10, at failing inputs.  No outcome of a poll changes the period the
    timer was armed with.  A client that starts polling with the base
    delay and then fails a poll has [pollDelay] 3000 while its timer still
    runs every 2000 ms.  In sync-client.js a later success leaves
    [pollDelay] at 3000.  In the player management client a timer armed
    at 3000 keeps that period after the success that puts [pollDelay]
    back to 2000. *)
Theorem poll_outcome_does_not_rearm_timer :
  (forall res c, pollInterval (NetlifyClient.callback res c) = pollInterval c)
  /\ (forall res c, pollInterval (PlayerClient.callback res c) = pollInterval c)
  /\ (pollDelay (PlayerClient.callback PollError (enterRoom newClient)) == 3000)%Q
  /\ pollInterval (PlayerClient.callback PollError (enterRoom newClient))
     = Some 2000%Q
  /\ (pollDelay
        (NetlifyClient.callback (PollSuccess 5000%Z)
           (NetlifyClient.callback PollError (enterRoom newClient))) == 3000)%Q
  /\ (exists period,
        pollInterval
          (PlayerClient.callback (PollSuccess 9000%Z)
             (enterRoom
                (leaveRoom
                   (PlayerClient.callback PollError (enterRoom newClient)))))
        = Some period
        /\ (period == 3000)%Q)
  /\ (pollDelay
        (PlayerClient.callback (PollSuccess 9000%Z)
           (enterRoom
              (leaveRoom
                 (PlayerClient.callback PollError (enterRoom newClient)))))
      == 2000)%Q.
Proof.
  split; [|split].
  - intros res c. unfold NetlifyClient.callback.
    destruct (negb (inRoom c)); [reflexivity|]. now destruct res.
  - intros res c. unfold PlayerClient.callback.
    destruct (negb (inRoom c)); [reflexivity|]. now destruct res.
  - repeat split.
    eexists. split; [reflexivity|]. reflexivity.
Qed.

(** ** The room invariant along the handler *)

Lemma in_set {V : Type} (k k' : SessionId) (v v' : V) (m : JSMap.t V) :
  In (k', v') (JSMap.set k v m) -> (k', v') = (k, v) \/ In (k', v') m.
Proof.
  induction m as [|[k1 v1] m IH]; simpl.
  - intuition.
  - destruct (String.eqb k k1); simpl; intuition.
Qed.

Lemma records_carry_owner_subset r r' :
  records_carry_owner r -> incl (players r') (players r) ->
  records_carry_owner r'.
Proof.
  intros Hown Hincl k l p Hin Hp. apply (Hown k l p); [|assumption].
  now apply Hincl.
Qed.

Lemma room_ok_newRoom now rid : room_ok (newRoom now rid).
Proof.
  repeat split; try constructor. intros k l p [].
Qed.

Lemma room_ok_addParticipant now sid info r :
  room_ok r -> room_ok (addParticipant now sid info r).
Proof.
  intros (Hpa & Hpl & Hown). repeat split; simpl; try assumption.
  now apply distinct_keys_set.
Qed.

Lemma room_ok_removeParticipant now sid r :
  room_ok r -> room_ok (removeParticipant now sid r).
Proof.
  intros (Hpa & Hpl & Hown). split; [|split]; simpl.
  - now apply distinct_keys_delete.
  - now apply distinct_keys_delete.
  - apply (records_carry_owner_subset r); [assumption|]. simpl.
    apply incl_filter.
Qed.

Lemma room_ok_updateParticipant now sid r :
  room_ok r -> room_ok (updateParticipant now sid r).
Proof.
  intros (Hpa & Hpl & Hown). unfold updateParticipant.
  destruct (JSMap.get sid (participants r)); [|now repeat split].
  repeat split; simpl; try assumption.
  now apply distinct_keys_set.
Qed.

Lemma room_ok_addMessage now rnd payload from r :
  room_ok r -> room_ok (addMessage now rnd payload from r).
Proof. intros H. exact H. Qed.

Lemma room_ok_updatePlayerData now sid arg r :
  room_ok r -> room_ok (room_of (updatePlayerData now sid arg r)).
Proof.
  intros (Hpa & Hpl & Hown).
  assert (Hdel : forall r',
             participants r' = participants r ->
             players r' = JSMap.delete sid (players r) -> room_ok r').
  { intros r' Hpa' Hpl'. split; [|split].
    - now rewrite Hpa'.
    - rewrite Hpl'. now apply distinct_keys_delete.
    - apply (records_carry_owner_subset r); [assumption|]. rewrite Hpl'.
      apply incl_filter. }
  unfold updatePlayerData. destruct arg as [|l|o].
  - now apply Hdel.
  - destruct (0 <? length l)%nat; [|now apply Hdel].
    split; [|split]; simpl.
    + assumption.
    + now apply distinct_keys_set, distinct_keys_delete.
    + intros k l' p Hin Hp. simpl in Hin. apply in_set in Hin.
      destruct Hin as [Heq|Hin].
      * inversion Heq; subst. apply in_map_iff in Hp.
        now destruct Hp as [pd [<- _]].
      * apply filter_In in Hin. now apply (Hown k l' p).
  - destruct (pl_length o) as [n|]; [destruct (0 <? n)|]; now apply Hdel.
Qed.

Lemma distinct_keys_filter {V : Type} (f : SessionId * V -> bool)
    (m : JSMap.t V) :
  distinct_keys m -> distinct_keys (filter f m).
Proof.
  unfold distinct_keys, JSMap.keys.
  induction m as [|[k v] m IH]; intros Hnd; [constructor|].
  simpl in *. inversion Hnd as [|? ? Hnotin Hnd']; subst.
  destruct (f (k, v)); [|now apply IH].
  simpl. constructor; [|now apply IH].
  intros Hin. apply Hnotin. apply in_map_iff in Hin.
  destruct Hin as [e [He Hin]]. apply filter_In in Hin.
  apply in_map_iff. exists e. tauto.
Qed.

Lemma room_ok_getParticipantCount now r :
  room_ok r -> room_ok (fst (getParticipantCount now r)).
Proof.
  intros (Hpa & Hpl & Hown). unfold getParticipantCount; cbn [fst].
  destruct (purge_maps (now - 5 * 60 * 1000) (participants r) r) as [Ea El].
  cbv zeta in Ea, El.
  split; [|split].
  - rewrite Ea. now apply distinct_keys_filter.
  - rewrite El. now apply distinct_keys_filter.
  - apply (records_carry_owner_subset r); [assumption|]. rewrite El.
    apply incl_filter.
Qed.

Lemma room_ok_forEach_player now sid l r :
  room_ok r -> room_ok (room_of (forEach_player now sid l r)).
Proof.
  revert r. induction l as [|p rest IH]; intros r Hok; [exact Hok|].
  cbn [forEach_player].
  pose proof (room_ok_updatePlayerData now sid
                (ArgObject (playerWithSession sid r p)) r Hok) as H1.
  destruct (updatePlayerData now sid (ArgObject (playerWithSession sid r p)) r)
    as [r1|r1]; simpl in H1.
  - now apply IH.
  - exact H1.
Qed.

(** Every branch of the handler, on a room that satisfies the invariant,
    leaves a room that satisfies it; so does [/create-room]. *)
Lemma room_ok_branches now rnd sid info roomId dice timer arg since r :
  room_ok (fst (create_room now roomId sid info))
  /\ (room_ok r ->
      room_ok (fst (join_room now sid info r))
      /\ room_ok (fst (sync_players now rnd sid arg r))
      /\ room_ok (fst (handler_sync_players now rnd sid arg r))
      /\ room_ok (fst (sync_dice now rnd sid dice r))
      /\ room_ok (fst (sync_timer now rnd sid timer r))
      /\ room_ok (fst (poll now sid since r))
      /\ room_ok (fst (leave_room now rnd sid r))
      /\ room_ok (fst (room_info now r))).
Proof.
  assert (Hcount : forall r0 (f : Room -> nat -> Response),
             room_ok r0 ->
             room_ok (fst (let (r1, n) := getParticipantCount now r0 in
                           (r1, f r1 n)))).
  { intros r0 f H0. pose proof (room_ok_getParticipantCount now r0 H0) as H1.
    now destruct (getParticipantCount now r0). }
  split.
  - unfold create_room.
    apply (Hcount _ (fun r1 n => CreatedRoom n (getActivePlayerCount r1))).
    apply room_ok_addParticipant, room_ok_newRoom.
  - intros Hok.
    pose proof (room_ok_updateParticipant now sid r Hok) as Hup.
    split; [|split; [|split; [|split; [|split; [|split; [|split]]]]]].
    + unfold join_room.
      apply (Hcount _ (fun r1 n => JoinedRoom n (getActivePlayerCount r1)
                         (currentDiceValues r1) (timerState r1)
                         (getPlayerData r1))).
      now apply room_ok_addParticipant.
    + unfold sync_players.
      pose proof (room_ok_updatePlayerData now sid arg _ Hup) as H2.
      destruct (updatePlayerData now sid arg (updateParticipant now sid r))
        as [r2|r2]; simpl in H2; [|exact H2].
      apply (Hcount _ (fun r1 n => SyncedPlayers n (getActivePlayerCount r1)
                         (getPlayerData r1))).
      exact H2.
    + unfold handler_sync_players.
      destruct arg as [|l|o]; try exact Hup.
      pose proof (room_ok_forEach_player now sid l _ Hup) as H2.
      destruct (forEach_player now sid l (updateParticipant now sid r))
        as [r2|r2]; simpl in H2; [|exact H2].
      apply (Hcount _ (fun r1 n => SyncedPlayers n (getActivePlayerCount r1)
                         (getPlayerData r1))).
      exact H2.
    + unfold sync_dice. apply (Hcount _ (fun _ n => Synced n)). exact Hup.
    + unfold sync_timer. apply (Hcount _ (fun _ n => Synced n)). exact Hup.
    + unfold poll.
      apply (Hcount _ (fun r1 n =>
               Polled _ n (getActivePlayerCount r1) (currentDiceValues r1)
                 (timerState r1) (getPlayerData r1) now)).
      exact Hup.
    + unfold leave_room, isEmpty.
      pose proof (room_ok_getParticipantCount now
                    (addMessage now rnd
                       (PlayersUpdate
                          (getPlayerData (removeParticipant now sid r)))
                       sid (removeParticipant now sid r))
                    (room_ok_removeParticipant now sid r Hok)) as H2.
      now destruct (getParticipantCount now _).
    + unfold room_info.
      apply (Hcount _ (fun r1 n => RoomInfo n (getActivePlayerCount r1)
                         (timerState r1) (getPlayerData r1) (createdAt r1)
                         (lastActivity r1))).
      exact Hok.
Qed.

(** The dispatcher: without a sweep, a request on a room in the registry
    is answered by its branch, and a request on a room that is not there
    is answered 404 with the registry untouched. *)
Lemma handler_poll env roomId sid since rooms :
  env_sweep env = false ->
  match JSMap.get roomId rooms with
  | Some room =>
      snd (handler env (ReqPoll roomId sid since) rooms)
      = snd (poll (env_now env) sid since room)
      /\ JSMap.get roomId (fst (handler env (ReqPoll roomId sid since) rooms))
         = Some (fst (poll (env_now env) sid since room))
  | None => handler env (ReqPoll roomId sid since) rooms = (rooms, NotFound404)
  end.
Proof.
  intros Hs. unfold handler, on_room. rewrite Hs.
  destruct (JSMap.get roomId rooms) as [room|] eqn:E; [|reflexivity].
  destruct (poll (env_now env) sid since room) as [room' resp].
  split; [reflexivity|]. apply get_set_eq.
Qed.

(** ** The live participant count *)

Lemma room_ok_run_ops ops r : room_ok r -> room_ok (run_ops ops r).
Proof.
  unfold run_ops. revert r. induction ops as [|op ops IH]; intros r Hok.
  - exact Hok.
  - simpl. apply IH. destruct op as [now sid info|now rnd sid]; simpl.
    + apply (room_ok_branches now 0%Q sid info "" [] (timerState r)
               ArgMissing None r); assumption.
    + apply (room_ok_branches now rnd sid someInfo "" [] (timerState r)
               ArgMissing None r); assumption.
Qed.

(** C8.  [getParticipantCount] at clock reading [now] removes every
    participant whose [lastSeen] is more than five minutes before [now],
    removes the players of those sessions, touches nothing else, and
    returns the number of participants left.  So after any sequence of
    joins and leaves on a new room it returns the number of sessions whose
    [lastSeen] is within the five minutes. *)
Theorem getParticipantCount_purges_stale now r :
  (distinct_keys (participants r) ->
   let fresh := filter (fun e => negb (stale now (snd e))) (participants r) in
   participants (fst (getParticipantCount now r)) = fresh
   /\ snd (getParticipantCount now r) = length fresh
   /\ players (fst (getParticipantCount now r))
      = filter (fun e => negb (stale_session now r (fst e))) (players r)
   /\ messages (fst (getParticipantCount now r)) = messages r
   /\ currentDiceValues (fst (getParticipantCount now r)) = currentDiceValues r
   /\ timerState (fst (getParticipantCount now r)) = timerState r)
  /\ (forall ops t0 roomId,
        snd (getParticipantCount now (run_ops ops (newRoom t0 roomId)))
        = length
            (filter (fun e => negb (stale now (snd e)))
               (participants (run_ops ops (newRoom t0 roomId))))).
Proof.
  split.
  - apply getParticipantCount_fresh.
  - intros ops t0 roomId.
    destruct (room_ok_run_ops ops (newRoom t0 roomId) (room_ok_newRoom t0 roomId))
      as [Hnd _].
    now destruct (getParticipantCount_fresh now _ Hnd) as (_ & Hn & _).
Qed.

Lemma getParticipantCount_purges_stale_witness :
  distinct_keys (participants room_rolled)
  /\ JSMap.keys (participants (fst (getParticipantCount 302500 room_rolled)))
     = ["S2"]
  /\ snd (getParticipantCount 302500 room_rolled) = 1%nat.
Proof.
  assert (Hnd : distinct_keys (participants room_rolled)).
  { unfold distinct_keys. vm_compute.
    repeat constructor; simpl; intuition discriminate. }
  split; [exact Hnd|].
  destruct (proj1 (getParticipantCount_purges_stale 302500 room_rolled) Hnd)
    as (Hpa & Hn & _).
  rewrite Hpa, Hn. split; reflexivity.
Defined.

(** * Further properties of the code *)

(** ** Participants *)

Lemma room_ext (a b : Room) :
  id a = id b -> participants a = participants b ->
  currentDiceValues a = currentDiceValues b -> timerState a = timerState b ->
  players a = players b -> messages a = messages b ->
  createdAt a = createdAt b -> lastActivity a = lastActivity b -> a = b.
Proof. destruct a, b; simpl; intros; subst; reflexivity. Qed.

Lemma size_set {V : Type} (k : SessionId) (v : V) (m : JSMap.t V) :
  JSMap.size (JSMap.set k v m)
  = if JSMap.has k m then JSMap.size m else S (JSMap.size m).
Proof.
  unfold JSMap.has, JSMap.size.
  induction m as [|[k' v'] m IH]; simpl; [reflexivity|].
  destruct (String.eqb k k'); simpl; [reflexivity|].
  rewrite IH. now destruct (JSMap.get k m).
Qed.

Lemma keys_set {V : Type} (k : SessionId) (v : V) (m : JSMap.t V) :
  JSMap.keys (JSMap.set k v m)
  = if JSMap.has k m then JSMap.keys m else JSMap.keys m ++ [k].
Proof.
  unfold JSMap.has, JSMap.keys.
  induction m as [|[k' v'] m IH]; simpl; [reflexivity|].
  destruct (String.eqb k k') eqn:E; simpl.
  - apply String.eqb_eq in E. now subst.
  - rewrite IH. now destruct (JSMap.get k m).
Qed.

(** X1.  [addParticipant] stores the session with [joinedAt] and
    [lastSeen] at the clock reading, leaves every other participant entry
    as it was, and makes the map one larger exactly when the session was
    not in it; a session that is added again keeps its place and gets new
    times.  Players, dice, timer and log are not touched. *)
Theorem addParticipant_lookup now sessionId info r :
  JSMap.get sessionId (participants (addParticipant now sessionId info r))
  = Some (mkParticipant sessionId (pi_userAgent info) (pi_ip info) now now)
  /\ JSMap.delete sessionId (participants (addParticipant now sessionId info r))
     = JSMap.delete sessionId (participants r)
  /\ JSMap.size (participants (addParticipant now sessionId info r))
     = (if JSMap.has sessionId (participants r)
        then JSMap.size (participants r)
        else S (JSMap.size (participants r)))
  /\ JSMap.keys (participants (addParticipant now sessionId info r))
     = (if JSMap.has sessionId (participants r)
        then JSMap.keys (participants r)
        else JSMap.keys (participants r) ++ [sessionId])
  /\ players (addParticipant now sessionId info r) = players r
  /\ messages (addParticipant now sessionId info r) = messages r
  /\ lastActivity (addParticipant now sessionId info r) = now.
Proof.
  unfold addParticipant; simpl.
  split; [apply get_set_eq|].
  split; [apply delete_set_eq|].
  split; [apply size_set|].
  split; [apply keys_set|].
  repeat split.
Qed.

Lemma removeParticipant_after_add t1 t2 sid info r :
  removeParticipant t2 sid (addParticipant t1 sid info r)
  = removeParticipant t2 sid r.
Proof.
  unfold removeParticipant, addParticipant; simpl.
  apply room_ext; simpl; try reflexivity.
  apply delete_set_eq.
Qed.

(** X2.  Removing a session right after adding it is removing it from the
    room as it was before; when the session was neither a participant nor
    an owner of players, the room is the one before the join, with
    [lastActivity] at the reading of the removal. *)
Theorem removeParticipant_undoes_addParticipant t1 t2 sessionId info r :
  removeParticipant t2 sessionId (addParticipant t1 sessionId info r)
  = removeParticipant t2 sessionId r
  /\ (JSMap.get sessionId (participants r) = None ->
      JSMap.get sessionId (players r) = None ->
      removeParticipant t2 sessionId (addParticipant t1 sessionId info r)
      = with_lastActivity t2 r).
Proof.
  split; [apply removeParticipant_after_add|].
  intros Hpa Hpl. rewrite removeParticipant_after_add.
  unfold removeParticipant.
  apply room_ext; simpl; try reflexivity.
  - now apply delete_absent.
  - now apply delete_absent.
Qed.

Lemma removeParticipant_undoes_addParticipant_witness :
  JSMap.get "S9" (participants room_rolled) = None
  /\ JSMap.get "S9" (players room_rolled) = None
  /\ removeParticipant 7000 "S9" (addParticipant 6000 "S9" someInfo room_rolled)
     = with_lastActivity 7000 room_rolled.
Proof.
  split; [reflexivity|]. split; [reflexivity|].
  apply (removeParticipant_undoes_addParticipant 6000 7000 "S9" someInfo
           room_rolled); reflexivity.
Defined.

Lemma get_filter_first {V : Type} (f : SessionId * V -> bool) (k : SessionId)
    (v : V) (m : JSMap.t V) :
  JSMap.get k m = Some v -> f (k, v) = true ->
  JSMap.get k (filter f m) = Some v.
Proof.
  intros Hget Hf. induction m as [|[k' v'] m IH]; simpl in *; [discriminate|].
  destruct (String.eqb k k') eqn:E.
  - apply String.eqb_eq in E; subst k'. inversion Hget; subst v'.
    rewrite Hf. simpl. now rewrite String.eqb_refl.
  - destruct (f (k', v')); simpl; [rewrite E|]; now apply IH.
Qed.

Lemma get_some_size {V : Type} (k : SessionId) (v : V) (m : JSMap.t V) :
  JSMap.get k m = Some v -> (1 <= length m)%nat.
Proof. destruct m; simpl; [discriminate|lia]. Qed.

(** The [/poll] branch, once the room is looked up, refreshes the
    [lastSeen] of a participant before the stale entries are removed: the
    session is still a participant afterwards, the count in the response is
    at least 1, and [lastActivity] is the reading of the request. *)
Lemma poll_branch_counts_caller now sessionId since r p :
  distinct_keys (participants r) ->
  JSMap.get sessionId (participants r) = Some p ->
  JSMap.get sessionId (participants (fst (poll now sessionId since r)))
  = Some (mkParticipant (pa_sessionId p) (pa_userAgent p) (pa_ip p)
            (pa_joinedAt p) now)
  /\ lastActivity (fst (poll now sessionId since r)) = now
  /\ exists msgs n apc dice timer roster,
       snd (poll now sessionId since r) = Polled msgs n apc dice timer roster now
       /\ (1 <= n)%nat.
Proof.
  intros Hnd Hget. unfold poll.
  set (r1 := updateParticipant now sessionId r).
  set (p' := mkParticipant (pa_sessionId p) (pa_userAgent p) (pa_ip p)
               (pa_joinedAt p) now).
  assert (Hpa1 : participants r1 = JSMap.set sessionId p' (participants r)).
  { unfold r1, updateParticipant. now rewrite Hget. }
  assert (Hact1 : lastActivity r1 = now).
  { unfold r1, updateParticipant. now rewrite Hget. }
  assert (Hnd1 : distinct_keys (participants r1)).
  { rewrite Hpa1. now apply distinct_keys_set. }
  destruct (getParticipantCount_fresh now r1 Hnd1) as (Hfresh & Hn & _).
  assert (Hkept : JSMap.get sessionId
                    (filter (fun e => negb (stale now (snd e))) (participants r1))
                  = Some p').
  { apply get_filter_first.
    - rewrite Hpa1. apply get_set_eq.
    - unfold stale; simpl. apply negb_true_iff, Z.ltb_ge. lia. }
  assert (Hact : lastActivity (fst (getParticipantCount now r1)) = now).
  { unfold getParticipantCount; cbn [fst].
    destruct (purge_fields (now - 5 * 60 * 1000) (participants r1) r1)
      as (_ & _ & _ & _ & _ & ->).
    exact Hact1. }
  destruct (getParticipantCount now r1) as [r2 n]. cbn [fst snd] in *.
  split; [now rewrite Hfresh|]. split; [exact Hact|].
  do 6 eexists. split; [reflexivity|].
  rewrite Hn. exact (get_some_size _ _ _ Hkept).
Qed.

(** ** The purge over time *)

(** The keys the loop deletes at threshold [t2] are those it deletes at an
    earlier threshold [t1], and those it then still finds stale. *)
Lemma purge_thresholds (t1 t2 : Time) (ps : JSMap.t Participant) (k : SessionId) :
  t1 <= t2 ->
  let gone t l k :=
    existsb (fun e => String.eqb k (fst e) && (pa_lastSeen (snd e) <? t)) l in
  gone t2 ps k
  = gone t1 ps k
    || gone t2 (filter (fun e => negb (gone t1 ps (fst e))) ps) k.
Proof.
  intros Hle gone. apply eq_true_iff_eq.
  rewrite orb_true_iff. unfold gone. rewrite !existsb_exists. split.
  - intros [e [Hin He]].
    destruct (existsb
                (fun e0 => String.eqb (fst e) (fst e0) && (pa_lastSeen (snd e0) <? t1))
                ps) eqn:G.
    + left. apply existsb_exists in G. destruct G as [e0 [Hin0 He0]].
      exists e0. split; [assumption|].
      apply andb_prop in He, He0. destruct He as [Hk _], He0 as [Hk0 Hs0].
      apply String.eqb_eq in Hk, Hk0. rewrite Hs0, andb_true_r.
      apply String.eqb_eq. congruence.
    + right. exists e. split; [|assumption].
      apply filter_In. split; [assumption|]. now rewrite G.
  - intros [[e [Hin He]]|[e [Hin He]]].
    + exists e. split; [assumption|].
      apply andb_prop in He. destruct He as [Hk Hs].
      rewrite Hk. simpl. apply Z.ltb_lt in Hs. apply Z.ltb_lt. lia.
    + apply filter_In in Hin. exists e. tauto.
Qed.

Lemma purge_twice t1 t2 r :
  t1 <= t2 ->
  fold_left (purge_step t2)
    (participants (fold_left (purge_step t1) (participants r) r))
    (fold_left (purge_step t1) (participants r) r)
  = fold_left (purge_step t2) (participants r) r.
Proof.
  intros Hle.
  set (r1 := fold_left (purge_step t1) (participants r) r).
  destruct (purge_maps t1 (participants r) r) as [Hpa1 Hpl1].
  destruct (purge_maps t2 (participants r1) r1) as [Hpa12 Hpl12].
  destruct (purge_maps t2 (participants r) r) as [Hpa2 Hpl2].
  cbv zeta in *. fold r1 in Hpa1, Hpl1.
  destruct (purge_fields t1 (participants r) r) as (A1 & A2 & A3 & A4 & A5 & A6).
  fold r1 in A1, A2, A3, A4, A5, A6.
  destruct (purge_fields t2 (participants r1) r1) as (B1 & B2 & B3 & B4 & B5 & B6).
  destruct (purge_fields t2 (participants r) r) as (C1 & C2 & C3 & C4 & C5 & C6).
  apply room_ext; try congruence.
  - rewrite Hpa12, Hpa2, Hpa1 at 1. rewrite filter_filter_and.
    apply filter_ext. intros e. rewrite Hpa1.
    rewrite (purge_thresholds t1 t2 (participants r) (fst e) Hle).
    now rewrite negb_orb.
  - rewrite Hpl12, Hpl2, Hpl1. rewrite filter_filter_and.
    apply filter_ext. intros e. rewrite Hpa1.
    rewrite (purge_thresholds t1 t2 (participants r) (fst e) Hle).
    now rewrite negb_orb.
Qed.

(** X4.  Counting the participants at [t1] and again at a later (or the
    same) reading [t2] leaves the room, and returns the count, that one
    count at [t2] gives: asking twice at one reading purges nothing more,
    and a purge between two requests does not change what the later one
    finds. *)
Theorem getParticipantCount_cumulative t1 t2 r :
  t1 <= t2 ->
  getParticipantCount t2 (fst (getParticipantCount t1 r))
  = getParticipantCount t2 r.
Proof.
  intros Hle. unfold getParticipantCount; cbn [fst].
  rewrite (purge_twice (t1 - 5 * 60 * 1000) (t2 - 5 * 60 * 1000) r) by lia.
  reflexivity.
Qed.

Lemma getParticipantCount_cumulative_witness :
  2500 <= 302500
  /\ getParticipantCount 302500 (fst (getParticipantCount 2500 room_rolled))
     = getParticipantCount 302500 room_rolled.
Proof.
  split; [lia|].
  apply (getParticipantCount_cumulative 2500 302500 room_rolled). lia.
Defined.

(** ** Submitting players *)

Lemma updatePlayerData_from_others now sid arg r r' :
  JSMap.delete sid (players r) = JSMap.delete sid (players r') ->
  players (room_of (updatePlayerData now sid arg r))
  = players (room_of (updatePlayerData now sid arg r')).
Proof.
  intros H. unfold updatePlayerData.
  destruct arg as [|l|o]; simpl.
  - exact H.
  - destruct (0 <? length l)%nat; simpl; now rewrite H.
  - destruct (pl_length o) as [n|]; [destruct (0 <? n)|]; simpl; exact H.
Qed.

(** X5.  A submission replaces the players of the session as a whole:
    after two calls of [updatePlayerData] for one session the players map
    is the one the second call alone gives, whatever the first call
    stored and however it ended. *)
Theorem updatePlayerData_replaces t1 t2 sessionId arg1 arg2 r :
  players
    (room_of (updatePlayerData t2 sessionId arg2
                (room_of (updatePlayerData t1 sessionId arg1 r))))
  = players (room_of (updatePlayerData t2 sessionId arg2 r)).
Proof.
  apply updatePlayerData_from_others. apply updatePlayerData_players.
Qed.






(** ** The order of the log *)

Lemma Forall_skipn_keep {A : Type} (P : A -> Prop) (n : nat) (l : list A) :
  Forall P l -> Forall P (skipn n l).
Proof.
  revert l. induction n as [|n IH]; intros l H; [exact H|].
  destruct l as [|x l]; [constructor|].
  simpl. apply IH. now inversion H.
Qed.

Lemma StronglySorted_skipn_keep {A : Type} (R : A -> A -> Prop) (n : nat)
    (l : list A) :
  StronglySorted R l -> StronglySorted R (skipn n l).
Proof.
  revert l. induction n as [|n IH]; intros l H; [exact H|].
  destruct l as [|x l]; [constructor|].
  simpl. apply IH. now inversion H.
Qed.

Lemma StronglySorted_snoc {A : Type} (R : A -> A -> Prop) (l : list A) (x : A) :
  StronglySorted R l -> Forall (fun y => R y x) l -> StronglySorted R (l ++ [x]).
Proof.
  induction 1 as [|y l Hs IH Hy]; intros Hall; simpl.
  - repeat constructor.
  - inversion Hall; subst. constructor.
    + now apply IH.
    + apply Forall_app. split; [assumption|]. now constructor.
Qed.

(** Appending at a reading that is not before the log keeps it ordered. *)
Lemma append_ordered now now' rnd payload from ms :
  now <= now' -> log_ordered ms -> log_upto now ms ->
  log_ordered (slice_last 50 (ms ++ [stamped now' rnd payload from]))
  /\ log_upto now' (slice_last 50 (ms ++ [stamped now' rnd payload from])).
Proof.
  intros Hle Hord Hup. unfold slice_last, log_ordered, log_upto in *. split.
  - apply StronglySorted_skipn_keep, StronglySorted_snoc; [assumption|].
    eapply Forall_impl; [|exact Hup]. simpl. intros; lia.
  - apply Forall_skipn_keep. apply Forall_app. split.
    + eapply Forall_impl; [|exact Hup]. simpl. intros; lia.
    + constructor; [simpl; lia|constructor].
Qed.

Lemma after_count_messages now (r : Room) (f : Room -> nat -> Response) :
  messages (fst (let (r1, n) := getParticipantCount now r in (r1, f r1 n)))
  = messages r.
Proof.
  destruct (getParticipantCount_fields now r) as (_ & _ & Hm).
  now destruct (getParticipantCount now r).
Qed.

Lemma updatePlayerData_messages now sid arg r :
  messages (room_of (updatePlayerData now sid arg r)) = messages r.
Proof.
  unfold updatePlayerData. destruct arg as [|l|o]; simpl.
  - reflexivity.
  - now destruct (0 <? length l)%nat.
  - destruct (pl_length o) as [n|]; [destruct (0 <? n)|]; reflexivity.
Qed.

Lemma branches_append_at_most_one now rnd sid info dice timer arg since r :
  appends_at_most_one now rnd sid (messages r)
    (messages (fst (join_room now sid info r)))
  /\ appends_at_most_one now rnd sid (messages r)
       (messages (fst (sync_players now rnd sid arg r)))
  /\ appends_at_most_one now rnd sid (messages r)
       (messages (fst (handler_sync_players now rnd sid arg r)))
  /\ appends_at_most_one now rnd sid (messages r)
       (messages (fst (sync_dice now rnd sid dice r)))
  /\ appends_at_most_one now rnd sid (messages r)
       (messages (fst (sync_timer now rnd sid timer r)))
  /\ appends_at_most_one now rnd sid (messages r)
       (messages (fst (poll now sid since r)))
  /\ appends_at_most_one now rnd sid (messages r)
       (messages (fst (leave_room now rnd sid r)))
  /\ appends_at_most_one now rnd sid (messages r)
       (messages (fst (room_info now r))).
Proof.
  assert (Hup : messages (updateParticipant now sid r) = messages r)
    by apply updateParticipant_fields.
  split; [|split; [|split; [|split; [|split; [|split; [|split]]]]]].
  - left. unfold join_room. now rewrite after_count_messages.
  - unfold sync_players.
    pose proof (updatePlayerData_messages now sid arg
                  (updateParticipant now sid r)) as Hm.
    destruct (updatePlayerData now sid arg (updateParticipant now sid r))
      as [r2|r2]; simpl in Hm.
    + right. eexists. rewrite after_count_messages, addMessage_messages.
      now rewrite Hm, Hup.
    + left. simpl. now rewrite Hm.
  - unfold handler_sync_players. destruct arg as [|l|o]; try (now left).
    pose proof (forEach_player_messages now sid l
                  (updateParticipant now sid r)) as Hm.
    destruct (forEach_player now sid l (updateParticipant now sid r))
      as [r2|r2]; simpl in Hm.
    + right. eexists. rewrite after_count_messages, addMessage_messages.
      now rewrite Hm, Hup.
    + left. simpl. now rewrite Hm.
  - right. eexists. unfold sync_dice.
    rewrite after_count_messages, addMessage_messages. simpl.
    now rewrite Hup.
  - right. eexists. unfold sync_timer.
    rewrite after_count_messages, addMessage_messages. simpl.
    now rewrite Hup.
  - left. apply poll_messages.
  - right. eexists. unfold leave_room, isEmpty.
    destruct (getParticipantCount_fields now
                (addMessage now rnd
                   (PlayersUpdate (getPlayerData (removeParticipant now sid r)))
                   sid (removeParticipant now sid r))) as (_ & _ & Hm).
    destruct (getParticipantCount now _). cbn [fst] in *.
    rewrite Hm, addMessage_messages. reflexivity.
  - left. unfold room_info. now rewrite after_count_messages.
Qed.

Lemma appends_keep_order now now' rnd sid before after :
  now <= now' -> appends_at_most_one now' rnd sid before after ->
  log_ordered before /\ log_upto now before ->
  log_ordered after /\ log_upto now' after.
Proof.
  intros Hle [->|[payload ->]] [Hord Hup].
  - split; [assumption|].
    eapply Forall_impl; [|exact Hup]. simpl. intros; lia.
  - now apply (append_ordered now).
Qed.

(** X8.  As long as the clock of the requests does not go back, the log
    of a room stays in time order: if the events of the log are in
    non-decreasing order of their timestamps and none is later than
    [now], then after any branch of the handler served at a reading
    [now' >= now] they still are, and none is later than [now'].  A new
    room starts with an empty log. *)
Theorem branches_keep_log_ordered now now' rnd sid info dice timer arg since r :
  now <= now' ->
  log_ordered (messages r) /\ log_upto now (messages r) ->
  let ok r' := log_ordered (messages r') /\ log_upto now' (messages r') in
  ok (fst (join_room now' sid info r))
  /\ ok (fst (sync_players now' rnd sid arg r))
  /\ ok (fst (handler_sync_players now' rnd sid arg r))
  /\ ok (fst (sync_dice now' rnd sid dice r))
  /\ ok (fst (sync_timer now' rnd sid timer r))
  /\ ok (fst (poll now' sid since r))
  /\ ok (fst (leave_room now' rnd sid r))
  /\ ok (fst (room_info now' r)).
Proof.
  intros Hle Hok ok.
  destruct (branches_append_at_most_one now' rnd sid info dice timer arg since r)
    as (H1 & H2 & H3 & H4 & H5 & H6 & H7 & H8).
  unfold ok.
  repeat (split; [eapply (appends_keep_order now now'); eassumption|]).
  eapply (appends_keep_order now now'); eassumption.
Qed.

Lemma branches_keep_log_ordered_witness :
  3000 <= 4000
  /\ (log_ordered (messages room_rolled) /\ log_upto 3000 (messages room_rolled))
  /\ log_ordered (messages (fst (sync_dice 4000 0 "S2" [1; 1] room_rolled)))
  /\ log_upto 4000 (messages (fst (sync_dice 4000 0 "S2" [1; 1] room_rolled))).
Proof.
  assert (Hle : 3000 <= 4000) by lia.
  assert (Hok : log_ordered (messages room_rolled)
                /\ log_upto 3000 (messages room_rolled)).
  { split.
    - repeat constructor.
    - repeat constructor. simpl. lia. }
  split; [exact Hle|]. split; [exact Hok|].
  destruct (branches_keep_log_ordered 3000 4000 0 "S2" someInfo [1; 1]
              (timerState room_rolled) ArgMissing None room_rolled Hle Hok)
    as (_ & _ & _ & Hdice & _).
  exact Hdice.
Defined.

Lemma filter_all {A : Type} (f : A -> bool) (l : list A) :
  Forall (fun x => f x = true) l -> filter f l = l.
Proof.
  induction 1 as [|x l Hx _ IH]; simpl; [reflexivity|].
  now rewrite Hx, IH.
Qed.

(** X9.  In a log that is in time order, the events after a watermark are
    one stretch at the end of the log: [getRecentMessages(since)] returns
    the log from some position on, and every event before that position
    is not later than the watermark. *)
Theorem getRecentMessages_is_suffix t r :
  log_ordered (messages r) ->
  exists older,
    messages r = older ++ getRecentMessages (Some t) r
    /\ log_upto t older.
Proof.
  unfold getRecentMessages, log_ordered, log_upto.
  induction (messages r) as [|msg ms IH]; intros Hs.
  - exists []. split; [reflexivity|constructor].
  - inversion Hs as [|? ? Hs' Hall]; subst. simpl.
    destruct (t <? msg_timestamp msg) eqn:E.
    + exists []. split; [|constructor]. simpl. f_equal.
      symmetry. apply filter_all.
      eapply Forall_impl; [|exact Hall]. simpl.
      intros m Hm. apply Z.ltb_lt in E. apply Z.ltb_lt. lia.
    + destruct (IH Hs') as [older [Heq Hup]].
      exists (msg :: older). split.
      * simpl. now rewrite <- Heq.
      * constructor; [|assumption]. apply Z.ltb_ge in E. exact E.
Qed.

Lemma getRecentMessages_is_suffix_witness :
  log_ordered (messages room_rolled)
  /\ exists older,
       messages room_rolled = older ++ getRecentMessages (Some 1500) room_rolled
       /\ log_upto 1500 older.
Proof.
  assert (Hord : log_ordered (messages room_rolled)) by repeat constructor.
  split; [exact Hord|].
  exact (getRecentMessages_is_suffix 1500 room_rolled Hord).
Defined.

(** ** Watermarks *)

Lemma poll_messages_of now sid since r :
  polled_messages (snd (poll now sid since r))
  = Some (filter (fun msg => negb (String.eqb (msg_fromSession msg) sid))
            (getRecentMessages since r)).
Proof.
  unfold poll.
  destruct (getParticipantCount now (updateParticipant now sid r)) as [r2 n].
  simpl. unfold getRecentMessages.
  now destruct (updateParticipant_fields now sid r) as [-> _].
Qed.

(** X10.  A dice roll that another session syncs after the reading of a
    watermark is the last event of the next poll with that watermark,
    whatever else the log holds.  A dice roll synced in the very
    millisecond of the watermark is not among the events of that poll:
    the comparison with the watermark is strict. *)
Theorem poll_after_watermark t1 t2 t3 rnd sessionId from values r :
  from <> sessionId ->
  (t1 < t2 ->
   exists msgs,
     polled_messages
       (snd (poll t3 sessionId (Some t1)
               (fst (sync_dice t2 rnd from values r))))
     = Some (msgs ++ [stamped t2 rnd (DiceRoll values) from]))
  /\ (exists msgs,
        polled_messages
          (snd (poll t3 sessionId (Some t1)
                  (fst (sync_dice t1 rnd from values r))))
        = Some msgs
        /\ ~ In (stamped t1 rnd (DiceRoll values) from) msgs).
Proof.
  intros Hne. split.
  - intros Hlt. rewrite poll_messages_of. unfold getRecentMessages.
    destruct (sync_dice_effect t2 rnd from values r) as [_ [older ->]].
    rewrite !filter_app. eexists. f_equal. f_equal. simpl.
    replace (t1 <? t2) with true by (symmetry; now apply Z.ltb_lt).
    simpl.
    replace (String.eqb from sessionId) with false
      by (symmetry; now apply String.eqb_neq).
    reflexivity.
  - rewrite poll_messages_of. eexists. split; [reflexivity|].
    intros Hin. apply filter_In in Hin. destruct Hin as [Hin _].
    unfold getRecentMessages in Hin. apply filter_In in Hin.
    destruct Hin as [_ Hlt]. simpl in Hlt. apply Z.ltb_lt in Hlt. lia.
Qed.

Lemma poll_after_watermark_witness :
  "S1" <> "S2"
  /\ 3000 < 3500
  /\ exists msgs,
       polled_messages
         (snd (poll 4000 "S2" (Some 3000)
                 (fst (sync_dice 3500 0 "S1" [2; 4] room_rolled))))
       = Some (msgs ++ [stamped 3500 0 (DiceRoll [2; 4]) "S1"]).
Proof.
  assert (Hne : "S1" <> "S2") by discriminate.
  assert (Hlt : 3000 < 3500) by lia.
  split; [exact Hne|]. split; [exact Hlt|].
  exact (proj1 (poll_after_watermark 3000 3500 4000 0 "S2" "S1" [2; 4]
                  room_rolled Hne) Hlt).
Defined.

(** ** What the branches leave in the room *)

Lemma after_count_fields now (r : Room) (f : Room -> nat -> Response) :
  let r' := fst (let (r1, n) := getParticipantCount now r in (r1, f r1 n)) in
  r' = fst (getParticipantCount now r)
  /\ currentDiceValues r' = currentDiceValues r
  /\ timerState r' = timerState r
  /\ lastActivity r' = lastActivity r.
Proof.
  intros r'. subst r'.
  assert (H : fst (let (r1, n) := getParticipantCount now r in (r1, f r1 n))
              = fst (getParticipantCount now r))
    by now destruct (getParticipantCount now r).
  rewrite H. split; [reflexivity|].
  unfold getParticipantCount; cbn [fst].
  destruct (purge_fields (now - 5 * 60 * 1000) (participants r) r)
    as (_ & Hd & Ht & _ & _ & Ha).
  auto.
Qed.

Lemma join_room_response now sid info r :
  exists n apc roster,
    snd (join_room now sid info r)
    = JoinedRoom n apc (currentDiceValues r) (timerState r) roster.
Proof.
  unfold join_room.
  destruct (after_count_fields now (addParticipant now sid info r)
              (fun r1 n => JoinedRoom n (getActivePlayerCount r1)
                             (currentDiceValues r1) (timerState r1)
                             (getPlayerData r1)))
    as (_ & Hd & Ht & _).
  destruct (getParticipantCount now (addParticipant now sid info r))
    as [r2 n]. cbn [fst snd] in *.
  rewrite Hd, Ht. simpl. eauto.
Qed.

Lemma sync_timer_keeps_dice now rnd sid timer r :
  currentDiceValues (fst (sync_timer now rnd sid timer r)) = currentDiceValues r.
Proof.
  unfold sync_timer.
  match goal with
  | |- currentDiceValues (fst (let (_, _) := getParticipantCount now ?x in _)) = _ =>
      destruct (after_count_fields now x (fun _ n => Synced n))
        as (_ & Hd & _)
  end.
  cbv zeta in Hd. rewrite Hd. simpl.
  apply updateParticipant_fields.
Qed.

(** X11.  A session that joins gets the state the last syncs left: after
    a dice sync and a timer sync, the join response carries those dice
    values and that timer state, stamped with the session and the reading
    of the timer sync. *)
Theorem join_room_sees_last_sync t1 t2 t3 rnd1 rnd2 sessionId newcomer info
    values timer r :
  exists n apc roster,
    snd (join_room t3 newcomer info
           (fst (sync_timer t2 rnd2 sessionId timer
                   (fst (sync_dice t1 rnd1 sessionId values r)))))
    = JoinedRoom n apc (Some values)
        (mkTimerState (ts_isRunning timer) (ts_remainingTime timer)
           (ts_duration timer) (ts_startTime timer) (Some sessionId) (Some t2))
        roster.
Proof.
  destruct (join_room_response t3 newcomer info
              (fst (sync_timer t2 rnd2 sessionId timer
                      (fst (sync_dice t1 rnd1 sessionId values r)))))
    as (n & apc & roster & H).
  exists n, apc, roster. rewrite H. f_equal.
  - rewrite sync_timer_keeps_dice. apply sync_dice_effect.
  - apply (sync_timer_effect t2 rnd2 sessionId timer).
Qed.

Lemma get_filter_none {V : Type} (f : SessionId * V -> bool) (k : SessionId)
    (m : JSMap.t V) :
  JSMap.get k m = None -> JSMap.get k (filter f m) = None.
Proof.
  induction m as [|[k' v'] m IH]; simpl; [reflexivity|].
  destruct (String.eqb k k') eqn:E; [discriminate|].
  intros H. destruct (f (k', v')); simpl; [rewrite E|]; now apply IH.
Qed.

Lemma getParticipantCount_participants_get now r k :
  JSMap.get k (participants r) = None ->
  JSMap.get k (participants (fst (getParticipantCount now r))) = None.
Proof.
  unfold getParticipantCount; cbn [fst].
  destruct (purge_maps (now - 5 * 60 * 1000) (participants r) r) as [Hpa _].
  cbv zeta in Hpa. rewrite Hpa. apply get_filter_none.
Qed.

Lemma leave_room_as_count now rnd sid r :
  leave_room now rnd sid r
  = (fst (getParticipantCount now
            (addMessage now rnd
               (PlayersUpdate (getPlayerData (removeParticipant now sid r)))
               sid (removeParticipant now sid r))),
     (snd (getParticipantCount now
             (addMessage now rnd
                (PlayersUpdate (getPlayerData (removeParticipant now sid r)))
                sid (removeParticipant now sid r))) =? 0)%nat).
Proof.
  unfold leave_room, isEmpty. now destruct (getParticipantCount now _).
Qed.

(** X12.  After [/leave-room] the session is no participant and owns no
    players, in any room.  On a room with distinct participant keys the
    participants left are the others that are not stale, and the branch
    tells the registry to delete the room exactly when there is none. *)
Theorem leave_room_removes_session now rnd sessionId r :
  JSMap.get sessionId (participants (fst (leave_room now rnd sessionId r))) = None
  /\ JSMap.get sessionId (players (fst (leave_room now rnd sessionId r))) = None
  /\ (distinct_keys (participants r) ->
      let others :=
        filter (fun e => negb (stale now (snd e)))
          (JSMap.delete sessionId (participants r)) in
      participants (fst (leave_room now rnd sessionId r)) = others
      /\ snd (leave_room now rnd sessionId r) = (length others =? 0)%nat).
Proof.
  rewrite leave_room_as_count. cbn [fst snd].
  set (r2 := addMessage now rnd _ sessionId _).
  assert (Hpa : participants r2 = JSMap.delete sessionId (participants r))
    by reflexivity.
  assert (Hpl : players r2 = JSMap.delete sessionId (players r))
    by reflexivity.
  split; [|split].
  - apply getParticipantCount_participants_get. rewrite Hpa.
    apply get_delete_eq.
  - apply getParticipantCount_players_get. rewrite Hpl. apply get_delete_eq.
  - intros Hnd. cbv zeta.
    assert (Hnd2 : distinct_keys (participants r2)).
    { rewrite Hpa. now apply distinct_keys_delete. }
    destruct (getParticipantCount_fresh now r2 Hnd2) as (Hfresh & Hn & _).
    rewrite Hfresh, Hn, Hpa. split; reflexivity.
Qed.

Lemma leave_room_removes_session_witness :
  distinct_keys (participants room_rolled)
  /\ JSMap.keys (participants (fst (leave_room 5000 0 "S1" room_rolled))) = ["S2"]
  /\ snd (leave_room 5000 0 "S1" room_rolled) = false.
Proof.
  assert (Hnd : distinct_keys (participants room_rolled)).
  { unfold distinct_keys. vm_compute.
    repeat constructor; simpl; intuition discriminate. }
  split; [exact Hnd|].
  destruct (leave_room_removes_session 5000 0 "S1" room_rolled)
    as (_ & _ & H).
  destruct (H Hnd) as [Hpa Hflag].
  rewrite Hpa, Hflag. split; reflexivity.
Defined.

(** ** Activity and expiry *)

Lemma getParticipantCount_lastActivity now r :
  lastActivity (fst (getParticipantCount now r)) = lastActivity r.
Proof.
  unfold getParticipantCount; cbn [fst].
  now destruct (purge_fields (now - 5 * 60 * 1000) (participants r) r)
    as (_ & _ & _ & _ & _ & ->).
Qed.

Lemma after_count_lastActivity now (r : Room) (f : Room -> nat -> Response) :
  lastActivity (fst (let (r1, n) := getParticipantCount now r in (r1, f r1 n)))
  = lastActivity r.
Proof. now destruct (after_count_fields now r f) as (_ & _ & _ & H). Qed.


(** X14.  Reading does not keep a room alive: [/room/:id], and [/poll]
    from a session that is not a participant, leave [lastActivity], dice,
    timer and log as they are (they still purge stale participants), so
    the room expires at the same reading as without them. *)
Theorem reads_do_not_refresh_activity now later sessionId since r :
  (lastActivity (fst (room_info now r)) = lastActivity r
   /\ messages (fst (room_info now r)) = messages r
   /\ currentDiceValues (fst (room_info now r)) = currentDiceValues r
   /\ timerState (fst (room_info now r)) = timerState r
   /\ isExpired later (fst (room_info now r)) = isExpired later r)
  /\ (JSMap.get sessionId (participants r) = None ->
      lastActivity (fst (poll now sessionId since r)) = lastActivity r
      /\ isExpired later (fst (poll now sessionId since r)) = isExpired later r).
Proof.
  split.
  - unfold room_info.
    destruct (after_count_fields now r
                (fun r1 n => RoomInfo n (getActivePlayerCount r1) (timerState r1)
                               (getPlayerData r1) (createdAt r1)
                               (lastActivity r1)))
      as (_ & Hd & Ht & Ha).
    cbv zeta in *. unfold isExpired. rewrite Ha, Hd, Ht.
    rewrite after_count_messages. repeat split.
  - intros Habs. unfold poll, isExpired.
    rewrite after_count_lastActivity.
    rewrite (updateParticipant_absent now sessionId r Habs). split; reflexivity.
Qed.

Lemma reads_do_not_refresh_activity_witness :
  JSMap.get "ghost" (participants room_rolled) = None
  /\ lastActivity (fst (poll 9000 "ghost" None room_rolled))
     = lastActivity room_rolled.
Proof.
  split; [reflexivity|].
  destruct (reads_do_not_refresh_activity 9000 9000 "ghost" None room_rolled)
    as [_ H].
  exact (proj1 (H eq_refl)).
Defined.

(** ** The sweep of the registry *)

Lemma getParticipantCount_again now r :
  getParticipantCount now (fst (getParticipantCount now r))
  = getParticipantCount now r.
Proof.
  unfold getParticipantCount; cbn [fst].
  rewrite (purge_twice (now - 5 * 60 * 1000) (now - 5 * 60 * 1000) r) by lia.
  reflexivity.
Qed.

Lemma cleanupRooms_cons now roomId room rooms :
  cleanupRooms now ((roomId, room) :: rooms)
  = (if (snd (getParticipantCount now room) =? 0)%nat
        || isExpired now (fst (getParticipantCount now room))
     then []
     else [(roomId, fst (getParticipantCount now room))])
    ++ cleanupRooms now rooms.
Proof.
  unfold cleanupRooms; simpl. unfold isEmpty.
  now destruct (getParticipantCount now room).
Qed.

Lemma cleanupRooms_keys now rooms k :
  In k (JSMap.keys (cleanupRooms now rooms)) -> In k (JSMap.keys rooms).
Proof.
  induction rooms as [|[k1 room1] rooms IH]; [intros []|].
  rewrite cleanupRooms_cons. unfold JSMap.keys in *. rewrite map_app.
  intros Hin. apply in_app_or in Hin. destruct Hin as [Hin|Hin].
  - destruct (_ || _); simpl in Hin; [contradiction|]. simpl. tauto.
  - right. now apply IH.
Qed.

Lemma cleanupRooms_distinct now rooms :
  distinct_keys rooms -> distinct_keys (cleanupRooms now rooms).
Proof.
  unfold distinct_keys.
  induction rooms as [|[k1 room1] rooms IH]; intros Hnd; [constructor|].
  rewrite cleanupRooms_cons. inversion Hnd as [|? ? Hnotin Hnd']; subst.
  destruct (_ || _); simpl; [now apply IH|].
  constructor; [|now apply IH].
  intros Hin. apply Hnotin. now apply (cleanupRooms_keys now).
Qed.

Lemma cleanupRooms_get now rooms k :
  distinct_keys rooms ->
  JSMap.get k (cleanupRooms now rooms)
  = match JSMap.get k rooms with
    | None => None
    | Some room =>
        if (snd (getParticipantCount now room) =? 0)%nat
           || isExpired now (fst (getParticipantCount now room))
        then None
        else Some (fst (getParticipantCount now room))
    end.
Proof.
  unfold distinct_keys.
  induction rooms as [|[k1 room1] rooms IH]; intros Hnd; [reflexivity|].
  rewrite cleanupRooms_cons. inversion Hnd as [|? ? Hnotin Hnd']; subst.
  simpl. destruct (String.eqb k k1) eqn:E.
  - apply String.eqb_eq in E; subst k1.
    destruct (_ || _); simpl.
    + rewrite (IH Hnd').
      apply get_none_not_in in Hnotin. now rewrite Hnotin.
    + now rewrite String.eqb_refl.
  - destruct (_ || _); simpl; [|rewrite E]; now apply IH.
Qed.

(** X15.  The sweep keeps exactly the rooms that have a participant seen
    within the last five minutes and a write within the last hour, each
    purged of its stale participants; every other room is gone from the
    registry.  (The registry has distinct keys, as a [Map] has.) *)
Theorem cleanupRooms_keeps_live_rooms now rooms roomId :
  distinct_keys rooms ->
  JSMap.get roomId (cleanupRooms now rooms)
  = match JSMap.get roomId rooms with
    | None => None
    | Some room =>
        if (snd (getParticipantCount now room) =? 0)%nat
           || (lastActivity room <? now - 3600000)
        then None
        else Some (fst (getParticipantCount now room))
    end.
Proof.
  intros Hnd. rewrite (cleanupRooms_get now rooms roomId Hnd).
  destruct (JSMap.get roomId rooms) as [room|]; [|reflexivity].
  unfold isExpired. now rewrite getParticipantCount_lastActivity.
Qed.

Lemma cleanupRooms_keeps_live_rooms_witness :
  distinct_keys registry_two
  /\ JSMap.keys (cleanupRooms 304000 registry_two) = ["ROOM02"]
  /\ JSMap.get "ROOM01" (cleanupRooms 304000 registry_two) = None.
Proof.
  assert (Hnd : distinct_keys registry_two).
  { unfold distinct_keys. vm_compute.
    repeat constructor; simpl; intuition discriminate. }
  split; [exact Hnd|]. split; [reflexivity|].
  rewrite (cleanupRooms_keeps_live_rooms 304000 registry_two "ROOM01" Hnd).
  reflexivity.
Defined.

(** X16.  Sweeping twice at one reading is sweeping once: the rooms the
    sweep keeps are purged already and pass its test again. *)
Theorem cleanupRooms_idempotent now rooms :
  cleanupRooms now (cleanupRooms now rooms) = cleanupRooms now rooms.
Proof.
  induction rooms as [|[k room] rooms IH]; [reflexivity|].
  rewrite cleanupRooms_cons.
  destruct ((snd (getParticipantCount now room) =? 0)%nat
            || isExpired now (fst (getParticipantCount now room))) eqn:E.
  - exact IH.
  - cbn [app]. rewrite cleanupRooms_cons, getParticipantCount_again, E.
    cbn [app]. now rewrite IH.
Qed.

(** ** The dispatcher *)

(** X17.  A request that names a room the registry does not hold (after
    the sweep, if one ran) changes nothing in the registry and is
    answered 404, except [/leave-room], which is answered with success as
    always. *)
Theorem handler_without_room env req rooms0 :
  JSMap.get (request_room req) (swept env rooms0) = None ->
  handler env req rooms0 = (swept env rooms0, answer_without_room req).
Proof.
  intros Hnone. unfold handler, on_room. fold (swept env rooms0).
  destruct req; simpl in *; now rewrite Hnone.
Qed.

Lemma handler_without_room_witness :
  JSMap.get (request_room (ReqSyncDice "NOROOM" "S1" [3; 5]))
    (swept (mkEnv 4000 0 false "S9") registry_rolled) = None
  /\ handler (mkEnv 4000 0 false "S9") (ReqSyncDice "NOROOM" "S1" [3; 5])
       registry_rolled
     = (registry_rolled, NotFound404).
Proof.
  split; [reflexivity|].
  apply (handler_without_room (mkEnv 4000 0 false "S9")
           (ReqSyncDice "NOROOM" "S1" [3; 5]) registry_rolled).
  reflexivity.
Defined.

Lemma on_room_other (roomId k : string) rooms branch :
  k <> roomId ->
  JSMap.get k (fst (on_room roomId rooms branch)) = JSMap.get k rooms.
Proof.
  intros Hne. unfold on_room.
  destruct (JSMap.get roomId rooms) as [room|]; [|reflexivity].
  destruct (branch room) as [room' resp]. simpl.
  now apply get_set_ne.
Qed.

Lemma on_room_distinct (roomId : string) rooms branch :
  distinct_keys rooms -> distinct_keys (fst (on_room roomId rooms branch)).
Proof.
  intros Hnd. unfold on_room.
  destruct (JSMap.get roomId rooms) as [room|]; [|exact Hnd].
  destruct (branch room) as [room' resp]. simpl.
  now apply distinct_keys_set.
Qed.

(** X18.  A request touches one room only: whatever the request and its
    outcome, every room other than the one it names is in the registry
    afterwards exactly as the sweep (if one ran) left it, and a registry
    with distinct keys keeps distinct keys. *)
Theorem handler_leaves_other_rooms env req rooms0 :
  (forall roomId, roomId <> request_room req ->
     JSMap.get roomId (fst (handler env req rooms0))
     = JSMap.get roomId (swept env rooms0))
  /\ (distinct_keys rooms0 -> distinct_keys (fst (handler env req rooms0))).
Proof.
  split.
  - intros roomId Hne. unfold handler. fold (swept env rooms0).
    destruct req; simpl in Hne; try (now apply on_room_other).
    destruct (JSMap.get roomId0 (swept env rooms0)) as [room|]; [|reflexivity].
    destruct (leave_room (env_now env) (env_rnd env) sessionId room)
      as [room' empty].
    simpl. destruct empty; [now apply get_delete_ne|now apply get_set_ne].
  - intros Hnd.
    assert (Hsw : distinct_keys (swept env rooms0)).
    { unfold swept. destruct (env_sweep env); [|exact Hnd].
      now apply cleanupRooms_distinct. }
    unfold handler. fold (swept env rooms0).
    destruct req; try (now apply on_room_distinct).
    destruct (JSMap.get roomId (swept env rooms0)) as [room|]; [|exact Hsw].
    destruct (leave_room (env_now env) (env_rnd env) sessionId room)
      as [room' empty].
    simpl. destruct empty;
      [now apply distinct_keys_delete|now apply distinct_keys_set].
Qed.

Lemma handler_leaves_other_rooms_witness :
  "ROOM02" <> request_room (ReqSyncDice "ROOM01" "S1" [6; 6])
  /\ JSMap.get "ROOM02"
       (fst (handler (mkEnv 6000 0 false "S9")
               (ReqSyncDice "ROOM01" "S1" [6; 6]) registry_two))
     = JSMap.get "ROOM02" registry_two.
Proof.
  assert (Hne : "ROOM02" <> request_room (ReqSyncDice "ROOM01" "S1" [6; 6]))
    by discriminate.
  split; [exact Hne|].
  exact (proj1 (handler_leaves_other_rooms (mkEnv 6000 0 false "S9")
                  (ReqSyncDice "ROOM01" "S1" [6; 6]) registry_two)
           "ROOM02" Hne).
Defined.

(** X19.  [/leave-room] on a room in the registry: the registry holds the
    room as the branch left it, or holds it no more when the branch found
    no participant left; the answer is success.  In particular the room
    is deleted when its only participant leaves. *)
Theorem handler_leave_room env roomId sessionId rooms0 room :
  JSMap.get roomId (swept env rooms0) = Some room ->
  snd (handler env (ReqLeaveRoom roomId sessionId) rooms0) = LeftRoom
  /\ JSMap.get roomId (fst (handler env (ReqLeaveRoom roomId sessionId) rooms0))
     = (if snd (leave_room (env_now env) (env_rnd env) sessionId room)
        then None
        else Some (fst (leave_room (env_now env) (env_rnd env) sessionId room)))
  /\ (JSMap.keys (participants room) = [sessionId] ->
      JSMap.get roomId
        (fst (handler env (ReqLeaveRoom roomId sessionId) rooms0)) = None).
Proof.
  intros Hget. unfold handler. fold (swept env rooms0). rewrite Hget.
  destruct (leave_room (env_now env) (env_rnd env) sessionId room)
    as [room' empty] eqn:Hleave.
  cbn [fst snd].
  assert (Hlookup :
            JSMap.get roomId
              (if empty then JSMap.delete roomId (swept env rooms0)
               else JSMap.set roomId room' (swept env rooms0))
            = (if empty then None else Some room')).
  { destruct empty; [apply get_delete_eq|apply get_set_eq]. }
  split; [reflexivity|]. split; [exact Hlookup|].
  intros Honly. rewrite Hlookup.
  assert (Hflag : empty = snd (leave_room (env_now env) (env_rnd env)
                                 sessionId room)) by now rewrite Hleave.
  rewrite leave_room_as_count in Hflag. cbn [snd] in Hflag.
  assert (Hdel : JSMap.delete sessionId (participants room) = []).
  { destruct (participants room) as [|[k p] [|e rest]]; simpl in Honly;
      try discriminate.
    inversion Honly; subst k. simpl. now rewrite String.eqb_refl. }
  pose proof (getParticipantCount_fresh (env_now env)
                (addMessage (env_now env) (env_rnd env)
                   (PlayersUpdate
                      (getPlayerData
                         (removeParticipant (env_now env) sessionId room)))
                   sessionId (removeParticipant (env_now env) sessionId room)))
    as Hfresh.
  cbv zeta in Hfresh. simpl participants in Hfresh. rewrite Hdel in Hfresh.
  destruct (Hfresh (NoDup_nil _)) as (_ & Hn & _).
  rewrite Hn in Hflag. simpl in Hflag. now rewrite Hflag.
Qed.

Lemma handler_leave_room_witness :
  JSMap.get "ROOM02" (swept (mkEnv 6000 0 false "S9") registry_two)
  = Some (fst (create_room 5000 "ROOM02" "T1" someInfo))
  /\ JSMap.get "ROOM02"
       (fst (handler (mkEnv 6000 0 false "S9") (ReqLeaveRoom "ROOM02" "T1")
               registry_two))
     = None.
Proof.
  split; [reflexivity|].
  destruct (handler_leave_room (mkEnv 6000 0 false "S9") "ROOM02" "T1"
              registry_two (fst (create_room 5000 "ROOM02" "T1" someInfo))
              eq_refl) as (_ & _ & H).
  apply H. reflexivity.
Defined.

(** ** Creating a room *)




Lemma create_room_value now roomId sid info :
  create_room now roomId sid info
  = (addParticipant now sid info (newRoom now roomId), CreatedRoom 1 0).
Proof.
  unfold create_room, getParticipantCount. simpl.
  replace (now <? now - 300000) with false
    by (symmetry; apply Z.ltb_ge; lia).
  reflexivity.
Qed.



(** ** The client's delay, timer and watermark *)

Lemma backoff_between (lo d : Q) :
  (0 <= lo)%Q -> (lo <= d)%Q -> (lo <= 10000)%Q ->
  (lo <= Qmin (d * 1.5) 10000 <= 10000)%Q.
Proof.
  intros Hpos Hlo Hcap. split; [|apply Q.le_min_r].
  apply Q.min_glb; [lra|exact Hcap].
Qed.

Lemma callback_delay_bounds (res : PollResult) (c : Client) :
  (2000 <= pollDelay c <= 10000)%Q ->
  (2000 <= pollDelay (NetlifyClient.callback res c) <= 10000)%Q
  /\ (2000 <= pollDelay (PlayerClient.callback res c) <= 10000)%Q.
Proof.
  intros H.
  unfold NetlifyClient.callback, PlayerClient.callback.
  destruct (negb (inRoom c)); [tauto|].
  destruct res; simpl; try tauto.
  - split; [tauto|]. split; lra.
  - split; apply backoff_between; lra.
Qed.

Lemma run_client_delay_bounds (evs : list ClientEvent) (c : Client) :
  (2000 <= pollDelay c <= 10000)%Q ->
  (2000 <= pollDelay (run_client NetlifyClient.callback evs c) <= 10000)%Q
  /\ (2000 <= pollDelay (run_client PlayerClient.callback evs c) <= 10000)%Q.
Proof.
  unfold run_client. split.
  - revert c H. induction evs as [|ev evs IH]; intros c H; [exact H|].
    simpl. apply IH. destruct ev as [| |res]; simpl; try exact H.
    apply (callback_delay_bounds res c H).
  - revert c H. induction evs as [|ev evs IH]; intros c H; [exact H|].
    simpl. apply IH. destruct ev as [| |res]; simpl; try exact H.
    apply (callback_delay_bounds res c H).
Qed.

(** X21.  Whatever happens to a client after its construction (rooms
    entered and left, polls that succeed, answer without success, or
    fail, in any order), [pollDelay] stays between the base delay of
    2000 ms and the ceiling of 10000 ms, in both clients. *)
Theorem pollDelay_stays_in_range (evs : list ClientEvent) :
  (2000 <= pollDelay (run_client NetlifyClient.callback evs newClient) <= 10000)%Q
  /\ (2000 <= pollDelay (run_client PlayerClient.callback evs newClient)
      <= 10000)%Q.
Proof.
  apply run_client_delay_bounds. simpl. split; lra.
Qed.

Lemma callback_error (c : Client) :
  inRoom c = true ->
  PlayerClient.callback PollError c = backoff c
  /\ NetlifyClient.callback PollError c = backoff c.
Proof.
  intros Hin. unfold PlayerClient.callback, NetlifyClient.callback.
  now rewrite Hin.
Qed.

Lemma failures_from (lo : Q) (n : nat) (c : Client) :
  inRoom c = true -> (0 <= lo)%Q -> (lo <= pollDelay c)%Q -> (lo <= 10000)%Q ->
  let c' := run_client PlayerClient.callback (repeat (EvTick PollError) n) c in
  inRoom c' = true /\ (lo <= pollDelay c')%Q
  /\ run_client NetlifyClient.callback (repeat (EvTick PollError) n) c = c'.
Proof.
  revert c. induction n as [|n IH]; intros c Hin Hpos Hlo Hcap; simpl.
  - repeat split; assumption.
  - unfold run_client in *. simpl.
    destruct (callback_error c Hin) as [-> ->].
    apply IH; [exact Hin|exact Hpos| |exact Hcap].
    apply backoff_between; assumption.
Qed.

Lemma one_failure (lo hi : Q) (c : Client) :
  inRoom c = true -> (0 <= lo)%Q -> (lo <= pollDelay c)%Q ->
  (hi <= lo * 1.5)%Q -> (hi <= 10000)%Q ->
  inRoom (PlayerClient.callback PollError c) = true
  /\ (hi <= pollDelay (PlayerClient.callback PollError c))%Q.
Proof.
  intros Hin Hpos Hlo Hhi Hcap.
  rewrite (proj1 (callback_error c Hin)). simpl.
  split; [exact Hin|]. apply Q.min_glb; lra.
Qed.

Lemma four_failures (c : Client) :
  inRoom c = true -> (2000 <= pollDelay c)%Q ->
  let c' := run_client PlayerClient.callback (repeat (EvTick PollError) 4) c in
  inRoom c' = true /\ (10000 <= pollDelay c')%Q.
Proof.
  intros Hin Hlo. unfold run_client. simpl.
  destruct (one_failure 2000 3000 c Hin) as [Hin1 Hlo1]; try lra.
  destruct (one_failure 3000 4500 _ Hin1) as [Hin2 Hlo2]; try lra.
  destruct (one_failure 4500 6750 _ Hin2) as [Hin3 Hlo3]; try lra.
  apply (one_failure 6750 10000 _ Hin3); lra.
Qed.

(** X22.  Four failed polls in a row put [pollDelay] at the ceiling,
    whatever it was before (it is never below the base delay), and every
    further failure leaves it there: after [n >= 4] consecutive failures
    it is 10000, in both clients. *)
Theorem backoff_reaches_ceiling (n : nat) (c : Client) :
  inRoom c = true -> (2000 <= pollDelay c)%Q -> (4 <= n)%nat ->
  (pollDelay (run_client PlayerClient.callback (repeat (EvTick PollError) n) c)
   == 10000)%Q
  /\ (pollDelay
        (run_client NetlifyClient.callback (repeat (EvTick PollError) n) c)
      == 10000)%Q.
Proof.
  intros Hin Hlo Hn.
  assert (Hpos : (0 <= 2000)%Q) by lra.
  assert (Hcap : (2000 <= 10000)%Q) by lra.
  destruct (failures_from 2000 n c Hin Hpos Hlo Hcap) as (_ & _ & ->).
  assert (Hgoal : (pollDelay
                     (run_client PlayerClient.callback
                        (repeat (EvTick PollError) n) c)
                   == 10000)%Q); [|now split].
  apply Qle_antisym.
  - destruct n as [|m]; [lia|].
    change (repeat (EvTick PollError) (S m))
      with (EvTick PollError :: repeat (EvTick PollError) m).
    rewrite repeat_cons. unfold run_client. rewrite fold_left_app. simpl.
    destruct (failures_from 2000 m c Hin Hpos Hlo Hcap) as (Hin' & _ & _).
    unfold run_client in Hin'.
    rewrite (proj1 (callback_error _ Hin')). simpl. apply Q.le_min_r.
  - replace n with (4 + (n - 4))%nat by lia.
    rewrite repeat_app. unfold run_client. rewrite fold_left_app.
    destruct (four_failures c Hin Hlo) as [Hin4 Hlo4].
    unfold run_client in Hin4, Hlo4.
    assert (Hpos4 : (0 <= 10000)%Q) by lra.
    assert (Hcap4 : (10000 <= 10000)%Q) by lra.
    now destruct (failures_from 10000 (n - 4) _ Hin4 Hpos4 Hlo4 Hcap4)
      as (_ & Hge & _).
Qed.

Lemma backoff_reaches_ceiling_witness :
  inRoom (enterRoom newClient) = true
  /\ (2000 <= pollDelay (enterRoom newClient))%Q
  /\ (4 <= 6)%nat
  /\ (pollDelay
        (run_client PlayerClient.callback (repeat (EvTick PollError) 6)
           (enterRoom newClient))
      == 10000)%Q.
Proof.
  assert (Hin : inRoom (enterRoom newClient) = true) by reflexivity.
  assert (Hlo : (2000 <= pollDelay (enterRoom newClient))%Q)
    by (simpl; lra).
  assert (Hn : (4 <= 6)%nat) by lia.
  split; [exact Hin|]. split; [exact Hlo|]. split; [exact Hn|].
  exact (proj1 (backoff_reaches_ceiling 6 (enterRoom newClient) Hin Hlo Hn)).
Defined.

Lemma ticks_watermark (results : list PollResult) (c : Client) :
  inRoom c = true ->
  lastPollTimestamp
    (run_client PlayerClient.callback (map EvTick results) c)
  = last_success results (lastPollTimestamp c)
  /\ lastPollTimestamp
       (run_client NetlifyClient.callback (map EvTick results) c)
     = last_success results (lastPollTimestamp c).
Proof.
  unfold run_client, last_success. split.
  - revert c H. induction results as [|res results IH]; intros c Hin;
      [reflexivity|].
    simpl. unfold PlayerClient.callback at 2. rewrite Hin. simpl.
    destruct res; (rewrite IH; [reflexivity|first [exact Hin|reflexivity]]).
  - revert c H. induction results as [|res results IH]; intros c Hin;
      [reflexivity|].
    simpl. unfold NetlifyClient.callback at 2. rewrite Hin. simpl.
    destruct res; (rewrite IH; [reflexivity|first [exact Hin|reflexivity]]).
Qed.

(** X24.  While a client is in a room, the watermark it sends with the
    next poll is the [timestamp] of its last poll that succeeded; polls
    that fail or come back without success leave the watermark as it
    is. *)
Theorem watermark_is_last_success (results : list PollResult) (c : Client) :
  inRoom c = true ->
  lastPollTimestamp
    (run_client PlayerClient.callback (map EvTick results) c)
  = last_success results (lastPollTimestamp c)
  /\ lastPollTimestamp
       (run_client NetlifyClient.callback (map EvTick results) c)
     = last_success results (lastPollTimestamp c).
Proof. apply ticks_watermark. Qed.

Lemma watermark_is_last_success_witness :
  inRoom (enterRoom newClient) = true
  /\ lastPollTimestamp
       (run_client PlayerClient.callback
          (map EvTick [PollSuccess 7000; PollError; PollNoSuccess])
          (enterRoom newClient))
     = Some 7000.
Proof.
  split; [reflexivity|].
  exact (proj1 (watermark_is_last_success
                  [PollSuccess 7000; PollError; PollNoSuccess]
                  (enterRoom newClient) eq_refl)).
Defined.

(** ** Invariants along the dispatcher *)

Lemma get_In {V : Type} (k : SessionId) (v : V) (m : JSMap.t V) :
  JSMap.get k m = Some v -> In (k, v) m.
Proof.
  induction m as [|[k' v'] m IH]; simpl; [discriminate|].
  destruct (String.eqb k k') eqn:E.
  - apply String.eqb_eq in E; subst. intros H; inversion H. now left.
  - intros H. right. now apply IH.
Qed.

Lemma Forall_set {V : Type} (P : SessionId * V -> Prop) (k : SessionId) (v : V)
    (m : JSMap.t V) :
  Forall P m -> P (k, v) -> Forall P (JSMap.set k v m).
Proof.
  intros Hall Hv. induction Hall as [|[k' v'] m Hx Hm IH]; simpl.
  - now constructor.
  - destruct (String.eqb k k'); constructor; assumption.
Qed.

Lemma Forall_filter_keep {A : Type} (P : A -> Prop) (f : A -> bool) (l : list A) :
  Forall P l -> Forall P (filter f l).
Proof.
  intros H. apply Forall_forall. intros x Hin. apply filter_In in Hin.
  rewrite Forall_forall in H. now apply H.
Qed.

Lemma cleanupRooms_ok now rooms :
  registry_ok rooms -> registry_ok (cleanupRooms now rooms).
Proof.
  intros [Hnd Hall]. split; [now apply cleanupRooms_distinct|].
  clear Hnd. induction Hall as [|[k room] rooms Hroom _ IH]; [constructor|].
  rewrite cleanupRooms_cons. apply Forall_app. split; [|exact IH].
  destruct (_ || _); constructor; [|constructor].
  simpl in *. now apply room_ok_getParticipantCount.
Qed.

Lemma on_room_ok (roomId : string) rooms (branch : Room -> Room * Response) :
  (forall room, room_ok room -> room_ok (fst (branch room))) ->
  registry_ok rooms -> registry_ok (fst (on_room roomId rooms branch)).
Proof.
  intros Hbranch [Hnd Hall]. split; [now apply on_room_distinct|].
  unfold on_room.
  destruct (JSMap.get roomId rooms) as [room|] eqn:Hget; [|exact Hall].
  pose proof (Hbranch room) as Hok.
  destruct (branch room) as [room' resp]. simpl in *.
  apply Forall_set; [exact Hall|]. simpl. apply Hok.
  apply get_In in Hget. rewrite Forall_forall in Hall.
  exact (Hall _ Hget).
Qed.

(** X25.  Every request keeps the registry well formed: if the room ids
    are distinct and every room has distinct participant keys, distinct
    player keys and records that name the session they are stored under,
    the same holds after any request on a room, with or without a sweep,
    and after [/create-room]. *)
Theorem handler_keeps_registry_ok env req rooms0 :
  registry_ok rooms0 ->
  registry_ok (fst (handler env req rooms0))
  /\ (forall draws info rooms' roomId response,
        handler_create_room env draws info rooms0
        = Some (rooms', roomId, response) ->
        registry_ok rooms').
Proof.
  intros Hok.
  assert (Hsw : registry_ok (swept env rooms0)).
  { unfold swept. destruct (env_sweep env); [|exact Hok].
    now apply cleanupRooms_ok. }
  split.
  - unfold handler. fold (swept env rooms0).
    destruct req as [roomId info|roomId sid arg|roomId sid dice|roomId sid timer
                    |roomId sid since|roomId sid|roomId].
    + apply on_room_ok; [|exact Hsw]. intros room Hroom.
      now apply (room_ok_branches (env_now env) 0%Q (env_sessionId env) info ""
                   [] (timerState room) ArgMissing None room).
    + apply on_room_ok; [|exact Hsw]. intros room Hroom.
      now apply (room_ok_branches (env_now env) (env_rnd env) sid someInfo ""
                   [] (timerState room) arg None room).
    + apply on_room_ok; [|exact Hsw]. intros room Hroom.
      now apply (room_ok_branches (env_now env) (env_rnd env) sid someInfo ""
                   dice (timerState room) ArgMissing None room).
    + apply on_room_ok; [|exact Hsw]. intros room Hroom.
      now apply (room_ok_branches (env_now env) (env_rnd env) sid someInfo ""
                   [] timer ArgMissing None room).
    + apply on_room_ok; [|exact Hsw]. intros room Hroom.
      now apply (room_ok_branches (env_now env) 0%Q sid someInfo ""
                   [] (timerState room) ArgMissing since room).
    + destruct Hsw as [Hnd Hall].
      destruct (JSMap.get roomId (swept env rooms0)) as [room|] eqn:Hget;
        [|now split].
      assert (Hroom : room_ok room).
      { apply get_In in Hget. rewrite Forall_forall in Hall.
        exact (Hall _ Hget). }
      pose proof (room_ok_branches (env_now env) (env_rnd env) sid someInfo ""
                    [] (timerState room) ArgMissing None room) as [_ Hb].
      destruct (Hb Hroom) as (_ & _ & _ & _ & _ & _ & Hleave & _).
      destruct (leave_room (env_now env) (env_rnd env) sid room)
        as [room' empty].
      simpl in *. destruct empty.
      * split; [now apply distinct_keys_delete|].
        now apply Forall_filter_keep.
      * split; [now apply distinct_keys_set|]. now apply Forall_set.
    + apply on_room_ok; [|exact Hsw]. intros room Hroom.
      now apply (room_ok_branches (env_now env) 0%Q "" someInfo ""
                   [] (timerState room) ArgMissing None room).
  - intros draws info rooms' roomId response. unfold handler_create_room.
    destruct (drawRoomId draws (swept env rooms0)) as [rid|]; [|discriminate].
    rewrite create_room_value. intros H. inversion H; subst.
    destruct Hsw as [Hnd Hall]. split; [now apply distinct_keys_set|].
    apply Forall_set; [exact Hall|]. simpl.
    apply room_ok_addParticipant, room_ok_newRoom.
Qed.

Lemma handler_keeps_registry_ok_witness :
  registry_ok registry_rolled
  /\ registry_ok
       (fst (handler (mkEnv 6000 0 true "S9") (ReqLeaveRoom "ROOM01" "S1")
               registry_rolled)).
Proof.
  assert (Hok : registry_ok registry_rolled).
  { split.
    - unfold distinct_keys. simpl. repeat constructor. intros [].
    - constructor; [|constructor]. simpl.
      split; [|split].
      + unfold distinct_keys. vm_compute.
        repeat constructor; simpl; intuition discriminate.
      + unfold distinct_keys. vm_compute. constructor.
      + intros k l p Hin. vm_compute in Hin. contradiction. }
  split; [exact Hok|].
  exact (proj1 (handler_keeps_registry_ok (mkEnv 6000 0 true "S9")
                  (ReqLeaveRoom "ROOM01" "S1") registry_rolled Hok)).
Defined.

Lemma count_not_zero_forallb {A : Type} (f : A -> bool) (l : list A) :
  (length (filter (fun x => negb (f x)) l) =? 0)%nat = forallb f l.
Proof.
  induction l as [|x l IH]; simpl; [reflexivity|].
  destruct (f x); simpl; [exact IH|reflexivity].
Qed.

(** X26.  On a room with distinct participant keys, [isEmpty] answers
    true exactly when every participant is stale at the reading (or there
    is none): one participant seen within the last five minutes keeps the
    room. *)
Theorem isEmpty_iff_all_stale now r :
  distinct_keys (participants r) ->
  snd (isEmpty now r) = forallb (fun e => stale now (snd e)) (participants r).
Proof.
  intros Hnd. unfold isEmpty.
  destruct (getParticipantCount_fresh now r Hnd) as (_ & Hn & _).
  destruct (getParticipantCount now r) as [r' n]. cbn [snd] in *.
  rewrite Hn. apply (count_not_zero_forallb (fun e => stale now (snd e))).
Qed.

Lemma isEmpty_iff_all_stale_witness :
  distinct_keys (participants room_rolled)
  /\ snd (isEmpty 302500 room_rolled) = false
  /\ snd (isEmpty 304000 room_rolled) = true.
Proof.
  assert (Hnd : distinct_keys (participants room_rolled)).
  { unfold distinct_keys. vm_compute.
    repeat constructor; simpl; intuition discriminate. }
  split; [exact Hnd|].
  rewrite !(isEmpty_iff_all_stale _ room_rolled Hnd).
  split; reflexivity.
Defined.

Lemma appends_within now rnd sid before after_ :
  appends_at_most_one now rnd sid before after_ ->
  (length after_ <= S (length before))%nat
  /\ ((length before <= 50)%nat -> (length after_ <= 50)%nat).
Proof.
  intros [->|[payload ->]].
  - split; lia.
  - rewrite slice_last_length, length_app. cbn [length]. split; lia.
Qed.

(** X27.  No branch of the handler lets the log grow by more than one
    event, and a log of at most 50 events has at most 50 events after any
    branch. *)
Theorem branches_keep_log_within now rnd sid info dice timer arg since r :
  (length (messages r) <= 50)%nat ->
  log_within (messages r) (fst (join_room now sid info r))
  /\ log_within (messages r) (fst (sync_players now rnd sid arg r))
  /\ log_within (messages r) (fst (handler_sync_players now rnd sid arg r))
  /\ log_within (messages r) (fst (sync_dice now rnd sid dice r))
  /\ log_within (messages r) (fst (sync_timer now rnd sid timer r))
  /\ log_within (messages r) (fst (poll now sid since r))
  /\ log_within (messages r) (fst (leave_room now rnd sid r))
  /\ log_within (messages r) (fst (room_info now r)).
Proof.
  intros Hlen.
  destruct (branches_append_at_most_one now rnd sid info dice timer arg since r)
    as (H1 & H2 & H3 & H4 & H5 & H6 & H7 & H8).
  unfold log_within.
  repeat match goal with
         | H : appends_at_most_one _ _ _ _ _ |- _ =>
             apply appends_within in H; destruct H as [? ?]
         end.
  repeat split; auto.
Qed.

Lemma branches_keep_log_within_witness :
  (length (messages room_full_log) <= 50)%nat
  /\ log_within (messages room_full_log)
       (fst (sync_dice 99 0 "S2" [6; 6] room_full_log)).
Proof.
  assert (Hlen : (length (messages room_full_log) <= 50)%nat)
    by (vm_compute; lia).
  split; [exact Hlen|].
  destruct (branches_keep_log_within 99 0 "S2" someInfo [6; 6]
              (timerState room_full_log) ArgMissing None room_full_log Hlen)
    as (_ & _ & _ & H & _).
  exact H.
Defined.

(** ** What a [/sync-players] request does to the players of the others *)














(** ** Requests of a session that is no participant *)


Lemma poll_absent now sid since r :
  JSMap.get sid (participants r) = None ->
  fst (poll now sid since r) = fst (getParticipantCount now r)
  /\ polled_messages (snd (poll now sid since r))
     = Some (filter (fun msg => negb (String.eqb (msg_fromSession msg) sid))
               (getRecentMessages since r))
  /\ messages (fst (poll now sid since r)) = messages r
  /\ currentDiceValues (fst (poll now sid since r)) = currentDiceValues r
  /\ timerState (fst (poll now sid since r)) = timerState r
  /\ lastActivity (fst (poll now sid since r)) = lastActivity r.
Proof.
  intros Habs.
  assert (Hfst : fst (poll now sid since r) = fst (getParticipantCount now r)).
  { unfold poll. rewrite (updateParticipant_absent now sid r Habs).
    now destruct (getParticipantCount now r). }
  split; [exact Hfst|].
  split; [apply poll_messages_of|].
  rewrite Hfst.
  destruct (getParticipantCount_fields now r) as (Hd & Ht & Hm).
  pose proof (getParticipantCount_lastActivity now r) as Ha.
  auto.
Qed.









(** ** A poll and the sweep before it *)

Lemma get_filter_dropped {V : Type} (f : SessionId * V -> bool)
    (k : SessionId) (v : V) (m : JSMap.t V) :
  distinct_keys m -> JSMap.get k m = Some v -> f (k, v) = false ->
  JSMap.get k (filter f m) = None.
Proof.
  unfold distinct_keys. intros Hnd Hget Hf.
  induction m as [|[k' v'] m IH]; simpl in *; [discriminate|].
  inversion Hnd as [|? ? Hnotin Hnd']; subst.
  destruct (String.eqb k k') eqn:E.
  - apply String.eqb_eq in E; subst k'. inversion Hget; subst v'.
    rewrite Hf. apply get_filter_none. now apply get_none_not_in.
  - destruct (f (k', v')); simpl; [rewrite E|]; now apply IH.
Qed.

(** The room the sweep leaves of a room that is not expired and has a
    participant that is not stale. *)
Lemma cleanupRooms_keeps_fresh now rooms roomId room0 sid p :
  distinct_keys rooms ->
  JSMap.get roomId rooms = Some room0 ->
  distinct_keys (participants room0) ->
  JSMap.get sid (participants room0) = Some p ->
  stale now p = false -> isExpired now room0 = false ->
  JSMap.get roomId (cleanupRooms now rooms)
  = Some (fst (getParticipantCount now room0))
  /\ distinct_keys (participants (fst (getParticipantCount now room0)))
  /\ JSMap.get sid (participants (fst (getParticipantCount now room0)))
     = Some p.
Proof.
  intros Hnd Hroom Hndp Hget Hfresh Hexp.
  destruct (getParticipantCount_fresh now room0 Hndp) as (Hpa & Hn & _).
  cbv zeta in Hpa, Hn.
  assert (Hkept : JSMap.get sid
                    (filter (fun e => negb (stale now (snd e)))
                       (participants room0)) = Some p).
  { apply get_filter_first; [exact Hget|]. simpl. now rewrite Hfresh. }
  split; [|split].
  - rewrite (cleanupRooms_get now rooms roomId Hnd), Hroom.
    assert (Hsize : (snd (getParticipantCount now room0) =? 0)%nat = false).
    { apply Nat.eqb_neq. rewrite Hn.
      pose proof (get_some_size _ _ _ Hkept). lia. }
    assert (Hexp' : isExpired now (fst (getParticipantCount now room0)) = false).
    { unfold isExpired in *.
      now rewrite getParticipantCount_lastActivity. }
    now rewrite Hsize, Hexp'.
  - rewrite Hpa. now apply distinct_keys_filter.
  - now rewrite Hpa.
Qed.

Lemma handler_poll_found env roomId sid since rooms0 room p :
  JSMap.get roomId (swept env rooms0) = Some room ->
  distinct_keys (participants room) ->
  JSMap.get sid (participants room) = Some p ->
  exists room',
    JSMap.get roomId (fst (handler env (ReqPoll roomId sid since) rooms0))
    = Some room'
    /\ JSMap.get sid (participants room')
       = Some (mkParticipant (pa_sessionId p) (pa_userAgent p) (pa_ip p)
                 (pa_joinedAt p) (env_now env))
    /\ lastActivity room' = env_now env
    /\ exists msgs n apc dice timer roster,
         snd (handler env (ReqPoll roomId sid since) rooms0)
         = Polled msgs n apc dice timer roster (env_now env)
         /\ (1 <= n)%nat.
Proof.
  intros Hroom Hndp Hget.
  destruct (poll_branch_counts_caller (env_now env) sid since room p Hndp Hget)
    as (Hp & Ha & Hresp).
  unfold handler. fold (swept env rooms0). cbv zeta.
  unfold on_room. rewrite Hroom.
  destruct (poll (env_now env) sid since room) as [room' resp].
  cbn [fst snd] in *.
  exists room'. split; [apply get_set_eq|]. auto.
Qed.

Lemma handler_poll_purged env roomId sid since rooms0 room0 p :
  env_sweep env = true ->
  distinct_keys rooms0 ->
  JSMap.get roomId rooms0 = Some room0 ->
  distinct_keys (participants room0) ->
  JSMap.get sid (participants room0) = Some p ->
  stale (env_now env) p = true ->
  match
    JSMap.get roomId (fst (handler env (ReqPoll roomId sid since) rooms0))
  with
  | Some room' => JSMap.get sid (participants room') = None
  | None => snd (handler env (ReqPoll roomId sid since) rooms0) = NotFound404
  end.
Proof.
  intros Hsweep Hnd Hroom Hndp Hget Hstale.
  unfold handler. rewrite Hsweep. cbv zeta. unfold on_room.
  pose proof (cleanupRooms_get (env_now env) rooms0 roomId Hnd) as Hc.
  rewrite Hroom in Hc.
  destruct ((snd (getParticipantCount (env_now env) room0) =? 0)%nat
            || isExpired (env_now env)
                 (fst (getParticipantCount (env_now env) room0))).
  - rewrite Hc. cbn [fst snd]. now rewrite Hc.
  - rewrite Hc.
    set (room1 := fst (getParticipantCount (env_now env) room0)).
    assert (Habs : JSMap.get sid (participants room1) = None).
    { subst room1.
      destruct (getParticipantCount_fresh (env_now env) room0 Hndp)
        as (Hpa & _).
      cbv zeta in Hpa. rewrite Hpa.
      apply (get_filter_dropped _ sid p); [exact Hndp|exact Hget|].
      simpl. now rewrite Hstale. }
    destruct (poll_absent (env_now env) sid since room1 Habs) as (Hfst & _).
    destruct (poll (env_now env) sid since room1) as [room' resp].
    cbn [fst snd] in *. rewrite get_set_eq. subst room'.
    now apply getParticipantCount_participants_get.
Qed.

Lemma handler_poll_expired env roomId sid since rooms0 room0 :
  env_sweep env = true ->
  distinct_keys rooms0 ->
  JSMap.get roomId rooms0 = Some room0 ->
  isExpired (env_now env) room0 = true ->
  handler env (ReqPoll roomId sid since) rooms0
  = (cleanupRooms (env_now env) rooms0, NotFound404).
Proof.
  intros Hsweep Hnd Hroom Hexp.
  unfold handler. rewrite Hsweep. cbv zeta. unfold on_room.
  rewrite (cleanupRooms_get (env_now env) rooms0 roomId Hnd), Hroom.
  assert (Hexp' : isExpired (env_now env)
                    (fst (getParticipantCount (env_now env) room0)) = true).
  { unfold isExpired in *. now rewrite getParticipantCount_lastActivity. }
  now rewrite Hexp', orb_true_r.
Qed.

(** X3.  A [/poll] request of a participant of a room of the registry,
    through [exports.handler].  When the sweep at the head of the handler
    does not run, or runs while the caller is not stale and the room not
    expired, the poll refreshes the caller's [lastSeen] (keeping
    [joinedAt]) before stale participants are removed: the caller is a
    participant of the room afterwards, [lastActivity] is the reading of
    the request and the [participantCount] of the response is at least 1.
    When the sweep runs and the caller is stale at that reading, the sweep
    purges it before [updateParticipant] runs: afterwards the room is gone
    and the request answered 404, or the room is there and the caller is
    no participant of it.  When the sweep runs and the room is expired,
    the answer is 404 and the registry is the swept one. *)
Theorem handler_poll_counts_its_caller env roomId sessionId since rooms0
    room0 p :
  distinct_keys rooms0 ->
  JSMap.get roomId rooms0 = Some room0 ->
  distinct_keys (participants room0) ->
  JSMap.get sessionId (participants room0) = Some p ->
  (env_sweep env = false
   \/ (stale (env_now env) p = false /\ isExpired (env_now env) room0 = false)
   -> exists room',
        JSMap.get roomId
          (fst (handler env (ReqPoll roomId sessionId since) rooms0))
        = Some room'
        /\ JSMap.get sessionId (participants room')
           = Some (mkParticipant (pa_sessionId p) (pa_userAgent p) (pa_ip p)
                     (pa_joinedAt p) (env_now env))
        /\ lastActivity room' = env_now env
        /\ exists msgs n apc dice timer roster,
             snd (handler env (ReqPoll roomId sessionId since) rooms0)
             = Polled msgs n apc dice timer roster (env_now env)
             /\ (1 <= n)%nat)
  /\ (env_sweep env = true -> stale (env_now env) p = true ->
      match
        JSMap.get roomId
          (fst (handler env (ReqPoll roomId sessionId since) rooms0))
      with
      | Some room' => JSMap.get sessionId (participants room') = None
      | None =>
          snd (handler env (ReqPoll roomId sessionId since) rooms0)
          = NotFound404
      end)
  /\ (env_sweep env = true -> isExpired (env_now env) room0 = true ->
      handler env (ReqPoll roomId sessionId since) rooms0
      = (cleanupRooms (env_now env) rooms0, NotFound404)).
Proof.
  intros Hnd Hroom Hndp Hget.
  split; [|split].
  - intros Hcase.
    destruct (env_sweep env) eqn:Hsweep.
    + destruct Hcase as [Hno|[Hfresh Hexp]]; [discriminate|].
      destruct (cleanupRooms_keeps_fresh (env_now env) rooms0 roomId room0
                  sessionId p Hnd Hroom Hndp Hget Hfresh Hexp)
        as (Hkept & Hndp' & Hget').
      apply (handler_poll_found env roomId sessionId since rooms0
               (fst (getParticipantCount (env_now env) room0)) p);
        [unfold swept; now rewrite Hsweep|exact Hndp'|exact Hget'].
    + apply (handler_poll_found env roomId sessionId since rooms0 room0 p);
        [unfold swept; now rewrite Hsweep|exact Hndp|exact Hget].
  - intros Hsweep Hstale.
    now apply (handler_poll_purged env roomId sessionId since rooms0 room0 p).
  - intros Hsweep Hexp.
    now apply (handler_poll_expired env roomId sessionId since rooms0 room0).
Qed.

Lemma handler_poll_counts_its_caller_witness :
  distinct_keys registry_rolled
  /\ JSMap.get "ROOM01" registry_rolled = Some room_rolled
  /\ distinct_keys (participants room_rolled)
  /\ JSMap.get "S2" (participants room_rolled)
     = Some (mkParticipant "S2" (pi_userAgent someInfo) (pi_ip someInfo)
               3000 3000)
  /\ (exists room',
        JSMap.get "ROOM01"
          (fst (handler (mkEnv 4000 0 true "S9") (ReqPoll "ROOM01" "S2" None)
                  registry_rolled))
        = Some room'
        /\ JSMap.get "S2" (participants room')
           = Some (mkParticipant "S2" (pi_userAgent someInfo)
                     (pi_ip someInfo) 3000 4000))
  /\ snd (handler (mkEnv 400000 0 true "S9") (ReqPoll "ROOM01" "S2" None)
            registry_rolled)
     = NotFound404.
Proof.
  assert (Hnd : distinct_keys registry_rolled).
  { unfold distinct_keys; simpl. repeat constructor; simpl; intuition. }
  assert (Hroom : JSMap.get "ROOM01" registry_rolled = Some room_rolled)
    by reflexivity.
  assert (Hndp : distinct_keys (participants room_rolled)).
  { unfold distinct_keys; simpl. repeat constructor; simpl;
      intuition discriminate. }
  assert (Hget : JSMap.get "S2" (participants room_rolled)
                 = Some (mkParticipant "S2" (pi_userAgent someInfo)
                           (pi_ip someInfo) 3000 3000))
    by reflexivity.
  split; [exact Hnd|]. split; [exact Hroom|]. split; [exact Hndp|].
  split; [exact Hget|].
  split.
  - destruct (handler_poll_counts_its_caller (mkEnv 4000 0 true "S9")
                "ROOM01" "S2" None registry_rolled room_rolled _
                Hnd Hroom Hndp Hget) as (Hkept & _).
    destruct Hkept as (room' & Hr & Hp & _);
      [right; split; reflexivity|].
    exists room'. split; [exact Hr|exact Hp].
  - destruct (handler_poll_counts_its_caller (mkEnv 400000 0 true "S9")
                "ROOM01" "S2" None registry_rolled room_rolled _
                Hnd Hroom Hndp Hget) as (_ & Hpurged & _).
    specialize (Hpurged eq_refl eq_refl).
    destruct (JSMap.get "ROOM01"
                (fst (handler (mkEnv 400000 0 true "S9")
                        (ReqPoll "ROOM01" "S2" None) registry_rolled)))
      eqn:E; [|exact Hpurged].
    vm_compute in E. discriminate.
Defined.

(** ** Writes and expiry *)






(** ** A poll in flight when the client leaves *)

Lemma callback_after_leaveRoom (res : PollResult) (c : Client) :
  NetlifyClient.callback res (leaveRoom c) = leaveRoom c
  /\ PlayerClient.callback res (leaveRoom c) = leaveRoom c.
Proof. split; reflexivity. Qed.

(** X23.  [leaveRoom()] does not cancel a request that is under way.  A run
    of the timer callback that starts after [leaveRoom()] returns at its
    guard, but the continuation of a poll that was sent before still runs
    on the client that has left.  It never arms the timer and never puts
    the client back into a room; on success it sets [lastPollTimestamp]
    again (and, in the player management client, [pollDelay] to 2000), on
    an error it raises [pollDelay].  The room entered next is then polled
    with the watermark and at the period that continuation left. *)
Theorem poll_in_flight_outlives_leaveRoom (res : PollResult) (c : Client) :
  let left := leaveRoom c in
  let late := NetlifyClient.complete res left in
  let late' := PlayerClient.complete res left in
  let watermark :=
    match res with PollSuccess timestamp => Some timestamp | _ => None end in
  (NetlifyClient.callback res left = left
   /\ PlayerClient.callback res left = left)
  /\ (inRoom late = false /\ pollInterval late = None
      /\ lastPollTimestamp late = watermark
      /\ pollDelay late
         = match res with
           | PollError => Qmin (pollDelay c * 1.5) 10000
           | _ => pollDelay c
           end)
  /\ (inRoom late' = false /\ pollInterval late' = None
      /\ lastPollTimestamp late' = watermark
      /\ pollDelay late'
         = match res with
           | PollSuccess _ => 2000%Q
           | PollNoSuccess => pollDelay c
           | PollError => Qmin (pollDelay c * 1.5) 10000
           end)
  /\ (lastPollTimestamp (enterRoom late) = watermark
      /\ pollInterval (enterRoom late) = Some (pollDelay late))
  /\ (lastPollTimestamp (enterRoom late') = watermark
      /\ pollInterval (enterRoom late') = Some (pollDelay late')).
Proof.
  intros left late late' watermark.
  split; [apply callback_after_leaveRoom|].
  subst left late late' watermark.
  destruct res as [timestamp| |]; repeat split.
Qed.
